(** * Caveman Article Agent (app.py): orchestration pipeline

    A shallow embedding of [app.py]: a Streamlit script that asks a chat
    model for an outline, an article and a resource list, looks for a header
    image on a stock-photo search service first and on an image generator
    second, keeps the last result in the session state and offers it as a
    markdown download.

    Python values are dynamically typed, so JSON documents and dictionary
    entries are values of one type [pyval]; truthiness, subscripting, [len],
    [in] and [.get] follow the interpreter, including the exceptions they
    raise.  External services are functions of a [world]; every call to one
    is written to a trace of events, together with the Streamlit calls that
    report to the user.  The library calls of the page that can refuse
    their arguments ([int], [st.set_option], [st.image]) are functions of a
    [host]. *)

From Stdlib Require Import ZArith QArith Ascii String.
From stdpp Require Import gmap strings list fin_maps pretty.

#[local] Set Warnings "-register-all".
#[local] Open Scope string_scope.
#[local] Open Scope list_scope.
#[local] Open Scope Z_scope.

(** ** Python values *)

(** The values that [json.loads] produces, which are also all the values
    this script ever stores.  A finite float is carried as the rational it
    denotes. *)
Inductive pyval : Type :=
| PNone
| PBool (b : bool)
| PInt (z : Z)
| PFloat (q : Q)
| PStr (s : string)
| PList (l : list pyval)
| PDict (d : gmap string pyval).

Abbreviation pydict := (gmap string pyval).

(** [bool(v)] *)
Definition truthy (v : pyval) : bool :=
  match v with
  | PNone => false
  | PBool b => b
  | PInt z => negb (z =? 0)
  | PFloat q => negb (Qnum q =? 0)
  | PStr s => negb (String.eqb s "")
  | PList l => match l with [] => false | _ => true end
  | PDict d => negb (Nat.eqb (size d) 0)
  end.

(** An [Optional[str]] attribute of an SDK object as a value. *)
Definition py_of_option (o : option string) : pyval :=
  match o with
  | Some s => PStr s
  | None => PNone
  end.

(** [type(v).__name__] *)
Definition type_name (v : pyval) : string :=
  match v with
  | PNone => "NoneType"
  | PBool _ => "bool"
  | PInt _ => "int"
  | PFloat _ => "float"
  | PStr _ => "str"
  | PList _ => "list"
  | PDict _ => "dict"
  end.

(** [str(v)]: a [str] is itself; for every other value [str] is [repr],
    which is the interpreter's and is taken as a parameter. *)
Definition py_str (repr : pyval -> string) (v : pyval) : string :=
  match v with
  | PStr s => s
  | _ => repr v
  end.

(** ** Exceptions *)

(** The exception classes that can arise in the script; every one of them
    derives from [Exception]. *)
Inductive exn_class : Type :=
| AttributeError
| TypeError
| KeyError
| IndexError
| JSONDecodeError
| RequestException
| OpenAIError
| ValueError
| StreamlitAPIException.

(** An exception with the text [str(e)] gives. *)
Record exn : Type := Exn { exn_cls : exn_class; exn_str : string }.

Inductive result (A : Type) : Type :=
| Ok (a : A)
| Raise (e : exn).

Arguments Ok {A} a.
Arguments Raise {A} e.

(** ** Operations of the interpreter on values

    The message texts are CPython's; they only ever reach the user inside a
    warning. *)

(** [v.get(k)] *)
Definition py_get (v : pyval) (k : string) : result pyval :=
  match v with
  | PDict d => Ok (default PNone (d !! k))
  | _ => Raise (Exn AttributeError
                  ("'" +:+ type_name v +:+ "' object has no attribute 'get'"))
  end.

(** [len(v)] *)
Definition py_len (v : pyval) : result Z :=
  match v with
  | PStr s => Ok (Z.of_nat (String.length s))
  | PList l => Ok (Z.of_nat (length l))
  | PDict d => Ok (Z.of_nat (size d))
  | _ => Raise (Exn TypeError
                  ("object of type '" +:+ type_name v +:+ "' has no len()"))
  end.

(** The position an index [i] denotes in a sequence of length [n]: negative
    indices count from the end. *)
Definition norm_index (i : Z) (n : nat) : option nat :=
  let j := if i <? 0 then i + Z.of_nat n else i in
  if (0 <=? j) && (j <? Z.of_nat n) then Some (Z.to_nat j) else None.

(** [l[i]] on a Python list *)
Definition list_item {A : Type} (l : list A) (i : Z) : result A :=
  match norm_index i (length l) ≫= (l !!.) with
  | Some x => Ok x
  | None => Raise (Exn IndexError "list index out of range")
  end.

(** [v[i]] for an integer [i].  The keys of a parsed JSON object are
    strings, so an integer is never found in one. *)
Definition py_item_int (v : pyval) (i : Z) : result pyval :=
  match v with
  | PList l => list_item l i
  | PStr s =>
      match norm_index i (String.length s) ≫= (fun n => String.get n s) with
      | Some c => Ok (PStr (String c ""))
      | None => Raise (Exn IndexError "string index out of range")
      end
  | PDict _ => Raise (Exn KeyError (pretty i))
  | _ => Raise (Exn TypeError
                  ("'" +:+ type_name v +:+ "' object is not subscriptable"))
  end.

(** [v[k]] for a string [k] *)
Definition py_item_str (v : pyval) (k : string) : result pyval :=
  match v with
  | PDict d =>
      match d !! k with
      | Some x => Ok x
      | None => Raise (Exn KeyError ("'" +:+ k +:+ "'"))
      end
  | PList _ =>
      Raise (Exn TypeError "list indices must be integers or slices, not str")
  | PStr _ =>
      Raise (Exn TypeError "string indices must be integers, not 'str'")
  | _ => Raise (Exn TypeError
                  ("'" +:+ type_name v +:+ "' object is not subscriptable"))
  end.

(** [x == k] for a string [k] *)
Definition py_eq_str (k : string) (x : pyval) : bool :=
  match x with
  | PStr s => String.eqb s k
  | _ => false
  end.

(** [k in s] on strings: [k] occurs in [s] *)
Definition substring_of (k s : string) : bool :=
  match String.index 0 k s with
  | Some _ => true
  | None => false
  end.

(** [k in v] for a string [k] *)
Definition py_contains (k : string) (v : pyval) : result bool :=
  match v with
  | PDict d => Ok (bool_decide (is_Some (d !! k)))
  | PList l => Ok (existsb (py_eq_str k) l)
  | PStr s => Ok (substring_of k s)
  | _ => Raise (Exn TypeError
                  ("argument of type '" +:+ type_name v +:+ "' is not iterable"))
  end.

(** ** The outside world *)

(** [requests.get(url, headers=..., params=..., timeout=...)] *)
Record get_request : Type := GetRequest {
  get_url : string;
  get_headers : list (string * string);
  get_params : list (string * pyval);
  get_timeout : Z
}.

(** What the script reads of a [requests.Response]: [status_code] and the
    outcome of [json()]. *)
Record http_response : Type := HttpResponse {
  status_code : Z;
  json : result pyval
}.

(** [openai.images.generate(model=..., prompt=..., size=..., quality=..., n=...)] *)
Record image_request : Type := ImageRequest {
  img_model : string;
  img_prompt : string;
  img_size : string;
  img_quality : string;
  img_n : Z
}.

Record image : Type := Image { url : option string }.
Record images_response : Type := ImagesResponse { data : list image }.

(** [openai.chat.completions.create(model=..., messages=[{"role": ...,
    "content": ...}], temperature=...)] *)
Record chat_request : Type := ChatRequest {
  chat_model : option string;
  chat_role : string;
  chat_content : string;
  chat_temperature : Q
}.

Record choice : Type := Choice { message_content : option string }.
Record chat_completion : Type := ChatCompletion { choices : list choice }.

(** The environment variables and the three services.  A call either
    returns or raises. *)
Record world : Type := World {
  getenv : string -> option string;
  requests_get : get_request -> result http_response;
  images_generate : image_request -> result images_response;
  chat_completions_create : chat_request -> result chat_completion
}.

(** What the page's own surroundings decide.  [int] on a string raises
    [ValueError] on what is not a number; [st.set_option] refuses the
    options that cannot be set while the page runs; [st.image] raises on a
    value it cannot load as an image.  None of the three is in the script,
    so each is a function that returns or raises. *)
Record host : Type := Host {
  int_of_str : string -> result Z;
  st_set_option : string -> pyval -> result unit;
  st_image : pyval -> string -> Z -> result unit
}.

(** What a run does that can be observed: calls to the services and calls
    to Streamlit. *)
Inductive event : Type :=
| RequestsGet (r : get_request)
| ImagesGenerate (r : image_request)
| ChatCreate (r : chat_request)
| StError (msg : string)
| StWarning (msg : string)
| StInfo (msg : string)
| StProgress (n : Z)
| StatusInfo (msg : string)
| StatusSuccess (msg : string)
| ProgressEmpty
| StatusEmpty
| StExpander (label : string)
| StMarkdown (body : pyval)
| StImage (img : pyval) (caption : string) (width : Z)
| StDownloadButton (label : string) (content : string) (file_name : string)
    (mime : string)
| StSetOption (key : string) (value : pyval).

(** ** Computations: a result or an exception, and the events so far *)

Definition M (A : Type) : Type := (result A * list event)%type.

Definition ret {A : Type} (a : A) : M A := (Ok a, []).

Definition lift {A : Type} (r : result A) : M A := (r, []).

Definition emit (e : event) : M unit := (Ok tt, [e]).

Definition bind {A B : Type} (m : M A) (f : A -> M B) : M B :=
  match m with
  | (Ok a, t) => let '(r, t') := f a in (r, t ++ t')
  | (Raise e, t) => (Raise e, t)
  end.

(** [try: body  except Exception as e: handler] *)
Definition try_except {A : Type} (body : M A) (handler : exn -> M A) : M A :=
  match body with
  | (Ok a, t) => (Ok a, t)
  | (Raise e, t) => let '(r, t') := handler e in (r, t ++ t')
  end.

Declare Scope py_scope.
Delimit Scope py_scope with py.

Notation "x <- m ;; k" := (bind m (fun x => k))
  (at level 100, m at next level, right associativity) : py_scope.
Notation "m ;; k" := (bind m (fun _ => k))
  (at level 100, right associativity) : py_scope.

#[local] Open Scope py_scope.

(** [a and b] as a condition *)
Definition py_and (a b : M bool) : M bool :=
  x <- a ;; if x : bool then b else ret false.

Definition nl : string := String "010"%char "".

(** The events that are calls to a service. *)
Definition is_client_call (e : event) : bool :=
  match e with
  | RequestsGet _ | ImagesGenerate _ | ChatCreate _ => true
  | _ => false
  end.

Definition client_calls (t : list event) : list event :=
  List.filter is_client_call t.

Section App.

Variable repr : pyval -> string.
Variable w : world.
Variable h : host.

(** A call to a service is written to the trace, then answered. *)
Definition call_requests_get (r : get_request) : M http_response :=
  emit (RequestsGet r) ;; lift (requests_get w r).

Definition call_images_generate (r : image_request) : M images_response :=
  emit (ImagesGenerate r) ;; lift (images_generate w r).

Definition call_chat_create (r : chat_request) : M chat_completion :=
  emit (ChatCreate r) ;; lift (chat_completions_create w r).

(** ** The clients *)

Definition freepik_request (api_key : pyval) (title : string) : get_request :=
  {| get_url := "https://api.freepik.com/v1/resources";
     get_headers := [("Authorization", "Bearer " +:+ py_str repr api_key)];
     get_params := [("term", PStr title); ("limit", PInt 1);
                    ("filters[content_type]", PStr "photo")];
     get_timeout := 10 |}.

(** [k1 in item and "preview" in item[k1]] *)
Definition has_preview (item : pyval) (k1 : string) : M bool :=
  py_and (lift (py_contains k1 item))
         (x <- lift (py_item_str item k1) ;; lift (py_contains "preview" x)).

(** [item[k1]["preview"].get("url")] *)
Definition preview_url (item : pyval) (k1 : string) : M pyval :=
  x <- lift (py_item_str item k1) ;;
  p <- lift (py_item_str x "preview") ;;
  lift (py_get p "url").

(** What the search client reads out of a parsed response body. *)
Definition parse_response (data : pyval) : M pyval :=
  nonempty <-
    py_and (d <- lift (py_get data "data") ;; ret (truthy d))
           (d <- lift (py_item_str data "data") ;;
            n <- lift (py_len d) ;;
            ret (0 <? n)) ;;
  if nonempty : bool then
    d <- lift (py_item_str data "data") ;;
    item <- lift (py_item_int d 0) ;;
    c1 <- has_preview item "attributes" ;;
    if c1 : bool then preview_url item "attributes"
    else
      c2 <- has_preview item "images" ;;
      if c2 : bool then preview_url item "images"
      else ret PNone
  else ret PNone.

Definition get_freepik_image (title : string) : M pyval :=
  try_except
    (let api_key := py_of_option (getenv w "FREEPIK_API_KEY") in
     if negb (truthy api_key) then ret PNone
     else
       response <- call_requests_get (freepik_request api_key title) ;;
       if status_code response =? 200 then
         data <- lift (json response) ;;
         parse_response data
       else ret PNone)
    (fun e =>
       emit (StWarning ("Freepik API error: " +:+ exn_str e)) ;;
       ret PNone).

Definition dalle_request (title : string) : image_request :=
  {| img_model := "dall-e-3";
     img_prompt :=
       "Create a modern, professional header image for an article titled '"
       +:+ title +:+
       "'. The image should be visually appealing and relevant to the topic.";
     img_size := "1024x1024";
     img_quality := "standard";
     img_n := 1 |}.

Definition generate_dalle_image (title : string) : M pyval :=
  try_except
    (response <- call_images_generate (dalle_request title) ;;
     first <- lift (list_item (data response) 0) ;;
     ret (py_of_option (url first)))
    (fun e =>
       emit (StError ("DALL-E generation error: " +:+ exn_str e)) ;;
       ret PNone).

Definition chat_request_of (content : string) (temperature : Q)
  : chat_request :=
  {| chat_model := getenv w "OPENAI_VERSION";
     chat_role := "user";
     chat_content := content;
     chat_temperature := temperature |}.

(** The three text calls share everything but the prompt, the temperature
    and the text of the error. *)
Definition chat (content : string) (temperature : Q) (err : string)
  : M pyval :=
  try_except
    (response <- call_chat_create (chat_request_of content temperature) ;;
     first <- lift (list_item (choices response) 0) ;;
     ret (py_of_option (message_content first)))
    (fun e => emit (StError (err +:+ exn_str e)) ;; ret PNone).

Definition outline_prompt (title word_range : string) : string :=
  "Create a detailed, structured outline for an article titled '" +:+ title
  +:+ "' that should be approximately " +:+ word_range
  +:+ " words. Format it as a clear, hierarchical outline with main sections and subsections.".

Definition generate_outline (title word_range : string) : M pyval :=
  chat (outline_prompt title word_range) (7 # 10) "Outline generation error: ".

Definition article_prompt (title : string) (outline : pyval)
  (word_range : string) : string :=
  "Write a complete, well-researched article titled '" +:+ title
  +:+ "' using this outline:" +:+ nl +:+ nl +:+ py_str repr outline
  +:+ nl +:+ nl +:+ "The article should be approximately " +:+ word_range
  +:+ " words. Make it engaging, informative, and professional. Include an introduction, well-structured body paragraphs, and a conclusion.".

Definition write_article (title : string) (outline : pyval)
  (word_range : string) : M pyval :=
  chat (article_prompt title outline word_range) (8 # 10)
       "Article writing error: ".

Definition resources_prompt (title : string) : string :=
  "Provide 5 authoritative online resources (websites, articles, studies, or references) related to '"
  +:+ title
  +:+ "'. Format each as a clear title and description. Include why each resource is valuable.".

Definition suggest_resources (title : string) : M pyval :=
  chat (resources_prompt title) (7 # 10) "Resource suggestion error: ".

Definition generate_header_image (title : string) : M (pyval * pyval) :=
  freepik_image <- get_freepik_image title ;;
  if truthy freepik_image then ret (freepik_image, PStr "Freepik")
  else
    dalle_image <- generate_dalle_image title ;;
    if truthy dalle_image then ret (dalle_image, PStr "DALL-E")
    else ret (PNone, PNone).

(** ** The generation run *)

(** The image step of the run: what [generate_header_image] returned goes
    into the dictionary, or two explicit [None]s do. *)
Definition store_image (title : string) (generated_content : pydict)
  : M pydict :=
  img <- generate_header_image title ;;
  let '(image_url, image_source) := img in
  if truthy image_url then
    emit (StProgress 80) ;;
    ret (<["image_source" := image_source]>
           (<["image_url" := image_url]> generated_content))
  else
    emit (StWarning "⚠️ Could not generate header image.") ;;
    ret (<["image_source" := PNone]>
           (<["image_url" := PNone]> generated_content)).

(** The resources step: the key is written only for a truthy answer. *)
Definition store_resources (title : string) (generated_content : pydict)
  : M pydict :=
  resources <- suggest_resources title ;;
  if truthy resources then
    emit (StProgress 100) ;;
    ret (<["resources" := resources]> generated_content)
  else ret generated_content.

(** The [else] branch of the button handler: the steps in order.  It
    returns the dictionary [generated_content] that the run built and the
    value of [st.session_state.generated_content] after the run. *)
Definition pipeline (title word_range : string) (session : option pydict)
  : M (pydict * option pydict) :=
  emit (StProgress 0) ;;
  let generated_content : pydict := ∅ in
  emit (StatusInfo "📋 Generating article outline...") ;;
  emit (StProgress 20) ;;
  outline <- generate_outline title word_range ;;
  r <- (if truthy outline then
          let generated_content := <["outline" := outline]> generated_content in
          emit (StProgress 40) ;;
          emit (StatusInfo "✍️ Writing full article...") ;;
          article <- write_article title outline word_range ;;
          if truthy article then
            let generated_content :=
              <["article" := article]> generated_content in
            emit (StProgress 60) ;;
            emit (StatusInfo "🖼️ Searching for header image...") ;;
            generated_content <- store_image title generated_content ;;
            emit (StatusInfo "📚 Gathering related resources...") ;;
            generated_content <- store_resources title generated_content ;;
            emit (StatusSuccess "✅ Article generation complete!") ;;
            ret (generated_content, Some generated_content)
          else
            emit (StError "❌ Failed to generate article. Please try again.") ;;
            ret (generated_content, session)
        else
          emit (StError "❌ Failed to generate outline. Please try again.") ;;
          ret (generated_content, session)) ;;
  emit ProgressEmpty ;;
  emit StatusEmpty ;;
  ret r.

(** [if generate_button:], entered with the button pressed.  The first
    component is the dictionary the run built, if it got as far as creating
    one; [openai.api_key] is what the script read from [OPENAI_API_KEY]. *)
Definition generate (title word_range : string) (session : option pydict)
  : M (option pydict * option pydict) :=
  if negb (truthy (PStr title)) || negb (truthy (PStr word_range)) then
    emit (StError "⚠️ Please fill in both the title and word range fields.") ;;
    ret (None, session)
  else if negb (truthy (py_of_option (getenv w "OPENAI_API_KEY"))) then
    emit (StError "⚠️ OpenAI API key not found. Please set OPENAI_API_KEY in your environment variables.") ;;
    ret (None, session)
  else
    r <- pipeline title word_range session ;;
    ret (Some r.1, r.2).

(** ** Display and export *)

(** [content.get(k, dflt)] *)
Definition get_default (content : pydict) (k : string) (dflt : pyval)
  : pyval :=
  default dflt (content !! k).

(** [s.replace(' ', '_')] *)
Fixpoint replace_spaces (s : string) : string :=
  match s with
  | EmptyString => EmptyString
  | String c s' =>
      String (if Ascii.eqb c " " then "_"%char else c) (replace_spaces s')
  end.

Definition markdown_content (title : string) (content : pydict) : string :=
  "# " +:+ title +:+ nl +:+ nl
  +:+ "## Outline" +:+ nl
  +:+ py_str repr (get_default content "outline" (PStr "")) +:+ nl +:+ nl
  +:+ "## Article" +:+ nl
  +:+ py_str repr (get_default content "article" (PStr "")) +:+ nl +:+ nl
  +:+ "## Resources" +:+ nl
  +:+ py_str repr (get_default content "resources" (PStr "")) +:+ nl.

Definition download_file_name (title : string) : string :=
  replace_spaces title +:+ ".md".

(** [st.image(...)] and [st.set_option(...)]: the call can raise; when it
    returns, what it did is written to the trace. *)
Definition call_st_image (img : pyval) (caption : string) (width : Z)
  : M unit :=
  lift (st_image h img caption width) ;; emit (StImage img caption width).

Definition call_set_option (key : string) (value : pyval) : M unit :=
  lift (st_set_option h key value) ;; emit (StSetOption key value).

(** [f"Header Image (Source: {content.get('image_source', 'Unknown')})"] *)
Definition image_caption (content : pydict) : string :=
  "Header Image (Source: "
  +:+ py_str repr (get_default content "image_source" (PStr "Unknown"))
  +:+ ")".

(** [if st.session_state.generated_content:] and what it shows. *)
Definition display (title : string) (download_clicked : bool)
  (session : option pydict) : M unit :=
  match session with
  | None => ret tt
  | Some content =>
      if truthy (PDict content) then
        emit (StExpander "📋 Article Outline") ;;
        emit (StMarkdown
                (get_default content "outline" (PStr "No outline generated."))) ;;
        emit (StMarkdown (PStr "---")) ;;
        emit (StMarkdown (PStr "### 📝 Complete Article")) ;;
        emit (StMarkdown
                (get_default content "article" (PStr "No article generated."))) ;;
        emit (StMarkdown (PStr "---")) ;;
        (if truthy (get_default content "image_url" PNone) then
           emit (StMarkdown (PStr "### 🖼️ Header Image")) ;;
           img <- lift (py_item_str (PDict content) "image_url") ;;
           call_st_image img (image_caption content) 700
         else
           emit (StMarkdown (PStr "### 🖼️ Header Image")) ;;
           emit (StInfo "No header image available.")) ;;
        emit (StMarkdown (PStr "---")) ;;
        emit (StMarkdown (PStr "### 📚 Additional Resources")) ;;
        emit (StMarkdown
                (get_default content "resources"
                   (PStr "No resources generated."))) ;;
        emit (StMarkdown (PStr "---")) ;;
        (if download_clicked then
           emit (StDownloadButton "Download Markdown File"
                   (markdown_content title content)
                   (download_file_name title)
                   "text/markdown")
         else ret tt) ;;
        emit (StInfo "💡 PDF export coming soon!")
      else ret tt
  end.

(** Lines 22 to 24: [port = int(os.environ.get("PORT", 8501))] and the two
    [st.set_option] calls.  The default is already an [int]. *)
Definition set_server_options : M unit :=
  port <- (match getenv w "PORT" with
           | Some s => lift (int_of_str h s)
           | None => ret 8501
           end) ;;
  call_set_option "server.port" (PInt port) ;;
  call_set_option "server.address" (PStr "0.0.0.0").

(** The script down to the end of the button handler: it gives the value
    of [st.session_state.generated_content] from there on. *)
Definition before_display (title word_range : string)
  (generate_button : bool) (session : option pydict) : M (option pydict) :=
  set_server_options ;;
  if generate_button then
    r <- generate title word_range session ;; ret r.2
  else ret session.

(** One execution of the script: Streamlit runs it again on every
    interaction, with the widgets' current values.  The first component
    is the session state the execution leaves, which Streamlit keeps also
    when the execution raised; the second is what the execution did.  An
    exception before the display leaves the session state as it was,
    since the handler assigns it last; the display does not assign it.
    The page header, the sidebar texts and the footer do not depend on
    the state and are left out. *)
Definition script (title word_range : string)
  (generate_button download_clicked : bool) (session : option pydict)
  : option pydict * M unit :=
  let before := before_display title word_range generate_button session in
  (match before.1 with
   | Ok session' => session'
   | Raise _ => session
   end,
   session' <- before ;; display title download_clicked session').

End App.

(** The session state of a fresh session: the script sets
    [generated_content] to [None] when the key is missing. *)
Definition initial_session : option pydict := None.

(** What a computation returned, and what it did. *)
Definition value {A : Type} (m : M A) : result A := m.1.
Definition trace {A : Type} (m : M A) : list event := m.2.

(** ** The states of the specification, read off the trace *)

(** The terminal states of a run.  The script has no such value: it tells
    the user by one of these four error texts or by the success text. *)
Inductive terminal : Type :=
| ConfigError
| OutlineFailed
| ArticleFailed
| Complete.

Definition report_of (e : event) : option terminal :=
  match e with
  | StError msg =>
      if String.eqb msg
           "⚠️ Please fill in both the title and word range fields."
      then Some ConfigError
      else if String.eqb msg
           "⚠️ OpenAI API key not found. Please set OPENAI_API_KEY in your environment variables."
      then Some ConfigError
      else if String.eqb msg
           "❌ Failed to generate outline. Please try again."
      then Some OutlineFailed
      else if String.eqb msg
           "❌ Failed to generate article. Please try again."
      then Some ArticleFailed
      else None
  | StatusSuccess msg =>
      if String.eqb msg "✅ Article generation complete!"
      then Some Complete
      else None
  | _ => None
  end.

(** The terminal states a trace reports, in order. *)
Definition reported (t : list event) : list terminal := omap report_of t.

(** A computation that calls no service and tells the user nothing. *)
Definition silent {A : Type} (m : M A) : Prop := trace m = [].

(** ** The data model of the specification on the dictionary *)

(** A field is present when the key is there and holds something other
    than [None]. *)
Definition present (content : pydict) (k : string) : bool :=
  match content !! k with
  | None | Some PNone => false
  | Some _ => true
  end.

(** [article] implies [outline]; [imageSource] and [imageUrl] go together. *)
Definition result_inv (content : pydict) : Prop :=
  (present content "article" = true -> present content "outline" = true)
  /\ present content "image_source" = present content "image_url".

(** Either a truthy URL with its label, or two [None]s. *)
Definition image_pair (u s : pyval) : Prop :=
  (truthy u = true /\ (s = PStr "Freepik" \/ s = PStr "DALL-E"))
  \/ (u = PNone /\ s = PNone).

(** The check at the head of the button handler passes: a title, a word
    range and a generation credential are there. *)
Definition config_ok (w : world) (title word_range : string) : bool :=
  truthy (PStr title) && truthy (PStr word_range)
  && truthy (py_of_option (getenv w "OPENAI_API_KEY")).

(** What a run that got through the article step has built: outline,
    article, the image pair, and resources when the call gave any. *)
Definition complete_content (content : pydict) : Prop :=
  exists outline article u s,
    truthy outline = true /\ truthy article = true /\ image_pair u s
    /\ let base :=
          <["image_source" := s]>
            (<["image_url" := u]>
               (<["article" := article]> {[ "outline" := outline ]})) in
        content = base
        \/ exists r, truthy r = true /\ content = <["resources" := r]> base.

(** The session states that executions of the script can lead to, from a
    fresh session, whatever the world answers and the user enters. *)
Inductive reachable (repr : pyval -> string) : option pydict -> Prop :=
| reachable_initial : reachable repr initial_session
| reachable_script w h title word_range generate_button download_clicked
    session session' m :
    reachable repr session ->
    script repr w h title word_range generate_button download_clicked session
    = (session', m) ->
    reachable repr session'.

(** [st.image] takes the image of a stored result: whenever the display
    comes to show the stored URL, the call returns. *)
Definition image_shows (repr : pyval -> string) (h : host)
  (content : pydict) : Prop :=
  forall u,
    content !! "image_url" = Some u -> truthy u = true ->
    st_image h u (image_caption repr content) 700 = Ok tt.

(** ** The two shapes of a search response *)

Definition dict_entry (v : pyval) (k : string) : option pyval :=
  match v with
  | PDict d => d !! k
  | _ => None
  end.

Definition first_entry (v : pyval) : option pyval :=
  match v with
  | PList (x :: _) => Some x
  | _ => None
  end.

(** The preview URL of the first result when it lies under key [k1]:
    [{"data": [{k1: {"preview": {"url": ...}}}, ...]}], with [k1] one of
    ["attributes"] and ["images"]. *)
Definition shape_url (k1 : string) (body : pyval) : option pyval :=
  item ← dict_entry body "data" ≫= first_entry;
  x ← dict_entry item k1;
  p ← dict_entry x "preview";
  dict_entry p "url".

(** ** Worlds that differ in the answer to one prompt *)

(** [w1] and [w2] answer alike, except possibly to a chat request whose
    message is [content]. *)
Definition agree_except (content : string) (w1 w2 : world) : Prop :=
  (forall k, getenv w1 k = getenv w2 k)
  /\ (forall r, requests_get w1 r = requests_get w2 r)
  /\ (forall r, images_generate w1 r = images_generate w2 r)
  /\ (forall r, chat_content r <> content ->
        chat_completions_create w1 r = chat_completions_create w2 r).

(** ** The export of the specification *)

(** The documents a run offered for download, with their file names. *)
Definition exported (t : list event) : list (string * string) :=
  omap (fun e => match e with
                 | StDownloadButton _ doc file_name _ => Some (doc, file_name)
                 | _ => None
                 end) t.

(** The template of the specification: a level-1 heading of the title
    and one level-2 section for each of the three texts. *)
Definition export_template (T O A R : string) : string :=
  "# " +:+ T +:+ nl +:+ nl
  +:+ "## Outline" +:+ nl +:+ O +:+ nl +:+ nl
  +:+ "## Article" +:+ nl +:+ A +:+ nl +:+ nl
  +:+ "## Resources" +:+ nl +:+ R +:+ nl.

(** ** What the user sees of the progress *)

(** The values the progress bar was set to, in order. *)
Definition progress_values (t : list event) : list Z :=
  omap (fun e => match e with StProgress n => Some n | _ => None end) t.

(** The images a run showed, with their captions. *)
Definition shown_images (t : list event) : list (pyval * string) :=
  omap (fun e => match e with
                 | StImage img caption _ => Some (img, caption)
                 | _ => None
                 end) t.

(** The first entry of the [data] list of a search response. *)
Definition first_result (body : pyval) : option pyval :=
  dict_entry body "data" ≫= first_entry.

(** A value that a text call can store: a string that is not empty. *)
Definition nonempty_str (v : pyval) : Prop :=
  exists s, v = PStr s /\ s <> "".

(** What a stored result looks like: the two texts are strings that are
    not empty, and so are the resources when they are there; the two image
    keys are always there; and there is no other key. *)
Definition stored_shape (c : pydict) : Prop :=
  (exists o, c !! "outline" = Some o /\ nonempty_str o)
  /\ (exists a, c !! "article" = Some a /\ nonempty_str a)
  /\ (exists u s,
        c !! "image_url" = Some u /\ c !! "image_source" = Some s
        /\ image_pair u s)
  /\ (forall r, c !! "resources" = Some r -> nonempty_str r)
  /\ (forall k,
        is_Some (c !! k) ->
        k ∈ ["outline"; "article"; "image_url"; "image_source"; "resources"]).

(** The text of the resources section of the export. *)
Definition resources_text (c : pydict) : string :=
  match c !! "resources" with
  | Some (PStr R) => R
  | _ => ""
  end.

(** ** Sample worlds *)

Module Sample.

Definition repr (v : pyval) : string :=
  match v with
  | PNone => "None"
  | PBool true => "True"
  | PBool false => "False"
  | _ => ""
  end.

(** A search response of the first shape. *)
Definition body (k1 : string) (u : pyval) : pyval :=
  PDict {[ "data" :=
    PList [PDict {[ k1 := PDict {[ "preview" := PDict {[ "url" := u ]} ]} ]}] ]}.

Definition env (freepik : option string) (k : string) : option string :=
  if String.eqb k "OPENAI_API_KEY" then Some "sk-test"
  else if String.eqb k "OPENAI_VERSION" then Some "gpt-4-turbo"
  else if String.eqb k "FREEPIK_API_KEY" then freepik
  else None.

Definition answer (s : option string) : result chat_completion :=
  Ok {| choices := [ {| message_content := s |} ] |}.

Definition timeout : exn := Exn RequestException "Read timed out.".
Definition quota : exn := Exn OpenAIError "insufficient_quota".

(** Every service answers. *)
Definition good : world :=
  {| getenv := env (Some "fp-test");
     requests_get := fun _ =>
       Ok {| status_code := 200;
             json := Ok (body "attributes" (PStr "https://img.example/p.jpg")) |};
     images_generate := fun _ =>
       Ok {| data := [ {| url := Some "https://img.example/g.png" |} ] |};
     chat_completions_create := fun r => answer (Some "text") |}.

(** The chat service fails on every call. *)
Definition no_chat : world :=
  {| getenv := getenv good;
     requests_get := requests_get good;
     images_generate := images_generate good;
     chat_completions_create := fun _ => Raise quota |}.

(** The chat service answers the outline request only. *)
Definition outline_only : world :=
  {| getenv := getenv good;
     requests_get := requests_get good;
     images_generate := images_generate good;
     chat_completions_create := fun r =>
       if String.prefix "Create" (chat_content r) then answer (Some "I. Intro")
       else Raise quota |}.

(** No search credential, and neither image tier nor the resources call
    gives anything. *)
Definition text_only : world :=
  {| getenv := env None;
     requests_get := fun _ => Raise timeout;
     images_generate := fun _ => Raise quota;
     chat_completions_create := fun r =>
       if String.prefix "Provide" (chat_content r) then Raise quota
       else answer (Some "text") |}.

(** Like [good], but the resources request fails. *)
Definition no_resources : world :=
  {| getenv := getenv good;
     requests_get := requests_get good;
     images_generate := images_generate good;
     chat_completions_create := fun r =>
       if String.eqb (chat_content r) (resources_prompt "Solar")
       then Raise quota
       else chat_completions_create good r |}.

(** The search times out. *)
Definition search_down : world :=
  {| getenv := getenv good;
     requests_get := fun _ => Raise timeout;
     images_generate := images_generate good;
     chat_completions_create := chat_completions_create good |}.

(** No generation credential. *)
Definition no_key : world :=
  {| getenv := fun _ => None;
     requests_get := requests_get good;
     images_generate := images_generate good;
     chat_completions_create := chat_completions_create good |}.

(** A world like [good] whose search answers with [status] and [body]. *)
Definition searching (status : Z) (body : result pyval) : world :=
  {| getenv := getenv good;
     requests_get := fun _ => Ok {| status_code := status; json := body |};
     images_generate := images_generate good;
     chat_completions_create := chat_completions_create good |}.

(** The search answers 404, with a body that would hold an image. *)
Definition not_found : world :=
  searching 404 (Ok (body "attributes" (PStr "https://img.example/p.jpg"))).

(** The search finds nothing. *)
Definition no_results : world :=
  searching 200 (Ok (PDict {[ "data" := PList [] ]})).

(** The search answers with a JSON array. *)
Definition list_body : world := searching 200 (Ok (PList [])).

(** The search answers with a URL under the second shape. *)
Definition second_shape : world :=
  searching 200 (Ok (body "images" (PStr "https://img.example/q.jpg"))).

(** A first result with a preview without URL under ["attributes"] and a
    preview with a URL under ["images"]. *)
Definition shadowed_body : pyval :=
  PDict {[ "data" :=
    PList [PDict {[ "attributes" := PDict {[ "preview" := PDict ∅ ]};
                    "images" :=
                      PDict {[ "preview" :=
                        PDict {[ "url" := PStr "https://img.example/q.jpg" ]} ]} ]}] ]}.

Definition shadowed : world := searching 200 (Ok shadowed_body).

Definition stored : pydict :=
  {[ "outline" := PStr "O"; "article" := PStr "A"; "resources" := PStr "R" ]}.

(** A page library that takes everything. *)
Definition page : host :=
  {| int_of_str := fun _ => Ok 8080;
     st_set_option := fun _ _ => Ok tt;
     st_image := fun _ _ _ => Ok tt |}.

(** Streamlit refuses to set a server option while the page runs. *)
Definition fixed_options : host :=
  {| int_of_str := int_of_str page;
     st_set_option := fun key _ =>
       Raise (Exn StreamlitAPIException (key +:+ " cannot be set on the fly."));
     st_image := st_image page |}.

(** [st.image] takes a string and nothing else. *)
Definition strict_image : host :=
  {| int_of_str := int_of_str page;
     st_set_option := st_set_option page;
     st_image := fun img _ _ =>
       match img with
       | PStr _ => Ok tt
       | _ => Raise (Exn TypeError "cannot load the image")
       end |}.

(** A search response whose preview URL is the number 123. *)
Definition number_url : world :=
  searching 200 (Ok (body "attributes" (PInt 123))).

End Sample.

(** * Properties *)

(** ** Computations *)

Section Computations.

Context {A B : Type}.

Lemma bind_Ok (m : M A) (f : A -> M B) a t r t' :
  m = (Ok a, t) -> f a = (r, t') -> bind m f = (r, t ++ t').
Proof. intros -> Hf. unfold bind. by rewrite Hf. Qed.

Lemma bind_Raise (m : M A) (f : A -> M B) e t :
  m = (Raise e, t) -> bind m f = (Raise e, t).
Proof. by intros ->. Qed.

Lemma bind_ret (a : A) (f : A -> M B) : bind (ret a) f = f a.
Proof. unfold bind, ret. by destruct (f a). Qed.

Lemma bind_emit (e : event) (k : M B) :
  bind (emit e) (fun _ => k) = (value k, e :: trace k).
Proof. unfold bind, emit. by destruct k. Qed.

Lemma trace_bind (m : M A) (f : A -> M B) :
  trace (bind m f)
  = trace m ++ match value m with Ok a => trace (f a) | Raise _ => [] end.
Proof.
  destruct m as [[a|e] t]; simpl.
  - by destruct (f a).
  - by rewrite app_nil_r.
Qed.

Lemma try_except_Ok (body : M A) (handler : exn -> M A) a t :
  body = (Ok a, t) -> try_except body handler = (Ok a, t).
Proof. by intros ->. Qed.

Lemma try_except_Raise (body : M A) (handler : exn -> M A) e t r t' :
  body = (Raise e, t) -> handler e = (r, t') ->
  try_except body handler = (r, t ++ t').
Proof. intros -> Hh. unfold try_except. by rewrite Hh. Qed.

Lemma bind_Ok_inv (m : M A) (f : A -> M B) b t :
  bind m f = (Ok b, t) ->
  exists a t1 t2, m = (Ok a, t1) /\ f a = (Ok b, t2) /\ t = t1 ++ t2.
Proof.
  destruct m as [[a|e] t1]; simpl; [|done].
  destruct (f a) as [r t2] eqn:Hf. intros [= -> <-]. by exists a, t1, t2.
Qed.

Lemma lift_Ok_inv (r : result A) a t : lift r = (Ok a, t) -> r = Ok a /\ t = [].
Proof. by intros [= -> <-]. Qed.

Lemma ret_Ok_inv (a a' : A) t : ret a = (Ok a', t) -> a = a' /\ t = [].
Proof. by intros [= -> <-]. Qed.

Lemma silent_ret (a : A) : silent (ret a).
Proof. done. Qed.

Lemma silent_lift (r : result A) : silent (lift r).
Proof. done. Qed.

Lemma silent_bind (m : M A) (f : A -> M B) :
  silent m -> (forall a, silent (f a)) -> silent (bind m f).
Proof.
  unfold silent. intros Hm Hf. rewrite trace_bind, Hm.
  destruct (value m); [apply Hf | done].
Qed.

End Computations.

Lemma silent_py_and (a b : M bool) : silent a -> silent b -> silent (py_and a b).
Proof.
  intros Ha Hb. apply silent_bind; [done|]. intros [|]; [done | apply silent_ret].
Qed.

Lemma silent_cases {A : Type} (m : M A) :
  silent m -> (exists a, m = (Ok a, [])) \/ (exists e, m = (Raise e, [])).
Proof.
  unfold silent, trace. destruct m as [[a|e] t]; simpl; intros ->; eauto.
Qed.

Create HintDb silent.

#[local] Hint Resolve silent_ret silent_lift silent_py_and : silent.

Lemma reported_app (t1 t2 : list event) :
  reported (t1 ++ t2) = reported t1 ++ reported t2.
Proof. apply omap_app. Qed.

Lemma client_calls_app (t1 t2 : list event) :
  client_calls (t1 ++ t2) = client_calls t1 ++ client_calls t2.
Proof. apply List.filter_app. Qed.

(** Inversion of a computation that returned. *)
Ltac inv_M H :=
  match type of H with
  | bind _ _ = (Ok _, _) =>
      let a := fresh "a" in
      let H1 := fresh H in
      let H2 := fresh H in
      apply bind_Ok_inv in H as (a & ? & ? & H1 & H2 & ->);
      inv_M H1; inv_M H2
  | lift _ = (Ok _, _) => apply lift_Ok_inv in H as [H ->]
  | ret _ = (Ok _, _) => apply ret_Ok_inv in H as [H ->]
  | _ => idtac
  end.

(** ** The clients never raise *)

Section Clients.

Variable repr : pyval -> string.
Variable w : world.

Lemma silent_has_preview item k1 : silent (has_preview item k1).
Proof.
  unfold has_preview. apply silent_py_and; [done|].
  apply silent_bind; [done|]. intros; apply silent_lift.
Qed.

Lemma silent_preview_url item k1 : silent (preview_url item k1).
Proof.
  unfold preview_url. repeat (apply silent_bind; [done | intros]). done.
Qed.

Lemma silent_parse_response data : silent (parse_response data).
Proof.
  unfold parse_response. apply silent_bind.
  - apply silent_py_and; repeat (apply silent_bind; [done | intros]); done.
  - intros [|]; [|done].
    do 2 (apply silent_bind; [done | intros]).
    apply silent_bind; [apply silent_has_preview | intros [|]].
    + apply silent_preview_url.
    + apply silent_bind; [apply silent_has_preview | intros [|]];
        [apply silent_preview_url | done].
Qed.

Lemma py_item_str_Ok v k x : py_item_str v k = Ok x -> dict_entry v k = Some x.
Proof.
  destruct v; simpl; try done. destruct (_ !! _); by intros [= ->].
Qed.

Lemma py_get_Ok v k x :
  py_get v k = Ok x -> x <> PNone -> dict_entry v k = Some x.
Proof.
  destruct v; simpl; try done. destruct (_ !! _); simpl; by intros [= ->].
Qed.

Lemma py_item_int_0_Ok v x :
  py_item_int v 0 = Ok x -> first_entry v = Some x \/ exists s, x = PStr s.
Proof.
  destruct v as [| | | |s|l|d]; simpl; try done.
  - destruct (_ ≫= _); intros [= <-]; eauto.
  - destruct l as [|y l]; [done|]. intros [= ->]. by left.
Qed.

Lemma preview_url_Ok item k1 v t :
  preview_url item k1 = (Ok v, t) -> v <> PNone ->
  exists x p,
    dict_entry item k1 = Some x /\ dict_entry x "preview" = Some p
    /\ dict_entry p "url" = Some v.
Proof.
  unfold preview_url. intros H Hv. inv_M H.
  eexists _, _. split_and!; eauto using py_item_str_Ok, py_get_Ok.
Qed.

(** A value other than [None] comes out of a body only from one of the two
    shapes. *)
Lemma parse_response_shape data v t :
  parse_response data = (Ok v, t) -> v <> PNone ->
  shape_url "attributes" data = Some v \/ shape_url "images" data = Some v.
Proof.
  unfold parse_response. intros H Hv. inv_M H.
  destruct a; [|by inv_M H1].
  inv_M H1.
  match goal with
  | Hd : py_item_str data "data" = Ok ?d, Hi : py_item_int ?d 0 = Ok ?item |- _ =>
      apply py_item_str_Ok in Hd;
      assert (Hshape : forall k1 t', preview_url item k1 = (Ok v, t') ->
                shape_url k1 data = Some v);
      [ intros k1 t' Hp;
        destruct (preview_url_Ok _ _ _ _ Hp Hv) as (x' & p & Hx & Hp' & Hu);
        apply py_item_int_0_Ok in Hi as [Hf|[s ->]]; [|done];
        unfold shape_url; rewrite Hd; simpl; rewrite Hf; simpl;
        rewrite Hx; simpl; by rewrite Hp'
      | ]
  end.
  match goal with
  | Hc : (if ?c then _ else _) = (Ok v, _) |- _ => destruct c; [eauto|inv_M Hc]
  end.
  match goal with
  | Hc : (if ?c then _ else _) = (Ok v, _) |- _ =>
      destruct c; [eauto | by inv_M Hc]
  end.
Qed.

(** A text call asks the chat service once and returns a value. *)
Lemma chat_cases content q err :
  (exists v, chat w content q err = (Ok v, [ChatCreate (chat_request_of w content q)]))
  \/ (exists e, chat w content q err
               = (Ok PNone, [ChatCreate (chat_request_of w content q);
                             StError (err +:+ exn_str e)])).
Proof.
  unfold chat, call_chat_create, bind, lift, emit, ret, try_except.
  destruct (chat_completions_create w _) as [resp|e]; simpl; [|eauto].
  destruct (list_item _ _); simpl; eauto.
Qed.

Lemma generate_dalle_image_cases title :
  (exists v, generate_dalle_image w title
             = (Ok v, [ImagesGenerate (dalle_request title)]))
  \/ (exists e, generate_dalle_image w title
               = (Ok PNone, [ImagesGenerate (dalle_request title);
                             StError ("DALL-E generation error: " +:+ exn_str e)])).
Proof.
  unfold generate_dalle_image, call_images_generate, bind, lift, emit, ret,
    try_except.
  destruct (images_generate w _) as [resp|e]; simpl; [|eauto].
  destruct (list_item _ _); simpl; eauto.
Qed.

(** The search client: nothing at all without a credential, else one
    request, and a warning when anything raised. *)
Lemma get_freepik_image_cases title :
  let api_key := py_of_option (getenv w "FREEPIK_API_KEY") in
  let req := freepik_request repr api_key title in
  (truthy api_key = false /\ get_freepik_image repr w title = (Ok PNone, []))
  \/ (truthy api_key = true
      /\ ((exists v, get_freepik_image repr w title = (Ok v, [RequestsGet req]))
          \/ (exists e, get_freepik_image repr w title
                       = (Ok PNone, [RequestsGet req;
                                     StWarning ("Freepik API error: " +:+ exn_str e)])))).
Proof.
  intros api_key req. unfold get_freepik_image. fold api_key req.
  destruct (truthy api_key); simpl; [right; split; [done|] | by left].
  destruct (requests_get w req) as [resp|e]; simpl; [|eauto].
  destruct (status_code resp =? 200); simpl; [|eauto].
  destruct (json resp) as [body|e]; simpl; [|eauto].
  destruct (silent_cases _ (silent_parse_response body)) as [[v ->]|[e ->]];
    simpl; eauto.
Qed.

End Clients.

(** ** What the clients leave in the trace *)

Section Traces.

Variable repr : pyval -> string.
Variable w : world.

Lemma chat_summary content q err :
  (forall s, report_of (StError (err +:+ s)) = None) ->
  exists v t,
    chat w content q err = (Ok v, t)
    /\ client_calls t = [ChatCreate (chat_request_of w content q)]
    /\ reported t = [].
Proof.
  intros Herr.
  destruct (chat_cases w content q err) as [[v ->]|[e ->]];
    eexists _, _; split_and!; try done.
  unfold reported. cbn -[report_of]. by rewrite Herr.
Qed.

Lemma generate_outline_summary title word_range :
  exists v t,
    generate_outline w title word_range = (Ok v, t)
    /\ client_calls t
       = [ChatCreate (chat_request_of w (outline_prompt title word_range) (7 # 10))]
    /\ reported t = [].
Proof. by apply chat_summary. Qed.

Lemma write_article_summary title outline word_range :
  exists v t,
    write_article repr w title outline word_range = (Ok v, t)
    /\ client_calls t
       = [ChatCreate
            (chat_request_of w (article_prompt repr title outline word_range)
               (8 # 10))]
    /\ reported t = [].
Proof. by apply chat_summary. Qed.

Lemma suggest_resources_summary title :
  exists v t,
    suggest_resources w title = (Ok v, t)
    /\ client_calls t
       = [ChatCreate (chat_request_of w (resources_prompt title) (7 # 10))]
    /\ reported t = [].
Proof. by apply chat_summary. Qed.

Lemma get_freepik_image_summary title :
  exists v t,
    get_freepik_image repr w title = (Ok v, t)
    /\ reported t = []
    /\ (client_calls t = []
        \/ client_calls t
           = [RequestsGet
                (freepik_request repr
                   (py_of_option (getenv w "FREEPIK_API_KEY")) title)]).
Proof.
  destruct (get_freepik_image_cases repr w title)
    as [[_ ->]|[_ [[v ->]|[e ->]]]]; eexists _, _; split_and!; eauto.
Qed.

Lemma generate_dalle_image_summary title :
  exists v t,
    generate_dalle_image w title = (Ok v, t)
    /\ reported t = []
    /\ client_calls t = [ImagesGenerate (dalle_request title)].
Proof.
  destruct (generate_dalle_image_cases w title) as [[v ->]|[e ->]];
    eexists _, _; split_and!; eauto.
Qed.

(** The orchestrator in terms of what its two clients return. *)
Lemma generate_header_image_eq title f t1 :
  get_freepik_image repr w title = (Ok f, t1) ->
  if truthy f
  then generate_header_image repr w title = (Ok (f, PStr "Freepik"), t1)
  else forall d t2,
      generate_dalle_image w title = (Ok d, t2) ->
      generate_header_image repr w title
      = (Ok (if truthy d then (d, PStr "DALL-E") else (PNone, PNone)),
         t1 ++ t2).
Proof.
  intros Hf. unfold generate_header_image, bind. rewrite Hf.
  destruct (truthy f).
  - simpl. by rewrite app_nil_r.
  - intros d t2 ->. destruct (truthy d); simpl; by rewrite app_nil_r.
Qed.

Lemma generate_header_image_summary title :
  exists u s t,
    generate_header_image repr w title = (Ok (u, s), t)
    /\ reported t = [] /\ image_pair u s.
Proof.
  destruct (get_freepik_image_summary title) as (f & t1 & Hf & Hr1 & _).
  pose proof (generate_header_image_eq title f t1 Hf) as H.
  destruct (truthy f) eqn:Ef.
  - exists f, (PStr "Freepik"), t1. split_and!; [done..|]. left; eauto.
  - destruct (generate_dalle_image_summary title) as (d & t2 & Hd & Hr2 & _).
    specialize (H d t2 Hd).
    destruct (truthy d) eqn:Ed; eexists _, _, _; (split; [exact H|]);
      rewrite reported_app, Hr1, Hr2; (split; [done|]).
    + left; eauto.
    + by right.
Qed.

End Traces.

(** ** The run, step by step *)

Section Run.

Variable repr : pyval -> string.
Variable w : world.

Lemma store_image_eq title gc u s t :
  generate_header_image repr w title = (Ok (u, s), t) ->
  store_image repr w title gc
  = if truthy u
    then (Ok (<["image_source" := s]> (<["image_url" := u]> gc)),
          t ++ [StProgress 80])
    else (Ok (<["image_source" := PNone]> (<["image_url" := PNone]> gc)),
          t ++ [StWarning "⚠️ Could not generate header image."]).
Proof.
  intros H. unfold store_image, bind. rewrite H. by destruct (truthy u).
Qed.

Lemma store_resources_eq title gc r t :
  suggest_resources w title = (Ok r, t) ->
  store_resources w title gc
  = if truthy r
    then (Ok (<["resources" := r]> gc), t ++ [StProgress 100])
    else (Ok gc, t).
Proof.
  intros H. unfold store_resources, bind. rewrite H.
  destruct (truthy r); [done|]. simpl. by rewrite app_nil_r.
Qed.

Lemma pipeline_outline_failed title word_range session outline t1 :
  generate_outline w title word_range = (Ok outline, t1) ->
  truthy outline = false ->
  pipeline repr w title word_range session
  = (Ok (∅, session),
     [StProgress 0; StatusInfo "📋 Generating article outline...";
      StProgress 20]
     ++ t1
     ++ [StError "❌ Failed to generate outline. Please try again.";
         ProgressEmpty; StatusEmpty]).
Proof.
  intros H1 Ho. unfold pipeline, bind, emit, ret. by rewrite H1, Ho.
Qed.

Lemma pipeline_article_failed title word_range session outline t1 article t2 :
  generate_outline w title word_range = (Ok outline, t1) ->
  truthy outline = true ->
  write_article repr w title outline word_range = (Ok article, t2) ->
  truthy article = false ->
  pipeline repr w title word_range session
  = (Ok ({[ "outline" := outline ]}, session),
     [StProgress 0; StatusInfo "📋 Generating article outline...";
      StProgress 20]
     ++ t1
     ++ [StProgress 40; StatusInfo "✍️ Writing full article..."]
     ++ t2
     ++ [StError "❌ Failed to generate article. Please try again.";
         ProgressEmpty; StatusEmpty]).
Proof.
  intros H1 Ho H2 Ha. unfold pipeline, bind, emit, ret.
  rewrite H1, Ho, H2, Ha. simpl. by rewrite <- !app_assoc.
Qed.

Lemma pipeline_complete title word_range session outline t1 article t2
    c3 t3 c4 t4 :
  generate_outline w title word_range = (Ok outline, t1) ->
  truthy outline = true ->
  write_article repr w title outline word_range = (Ok article, t2) ->
  truthy article = true ->
  store_image repr w title
    (<["article" := article]> {[ "outline" := outline ]}) = (Ok c3, t3) ->
  store_resources w title c3 = (Ok c4, t4) ->
  pipeline repr w title word_range session
  = (Ok (c4, Some c4),
     [StProgress 0; StatusInfo "📋 Generating article outline...";
      StProgress 20]
     ++ t1
     ++ [StProgress 40; StatusInfo "✍️ Writing full article..."]
     ++ t2
     ++ [StProgress 60; StatusInfo "🖼️ Searching for header image..."]
     ++ t3
     ++ [StatusInfo "📚 Gathering related resources..."]
     ++ t4
     ++ [StatusSuccess "✅ Article generation complete!";
         ProgressEmpty; StatusEmpty]).
Proof.
  intros H1 Ho H2 Ha H3 H4. unfold pipeline, bind, emit, ret.
  rewrite H1, Ho, H2, Ha, insert_empty, H3, H4. simpl.
  repeat first [rewrite <- app_assoc | rewrite <- app_comm_cons]. done.
Qed.

End Run.

(** ** The button handler *)

Section Generate.

Variable repr : pyval -> string.
Variable w : world.

Lemma generate_config_error title word_range session :
  config_ok w title word_range = false ->
  exists msg,
    generate repr w title word_range session
    = (Ok (None, session), [StError msg])
    /\ reported [StError msg] = [ConfigError].
Proof.
  unfold config_ok, generate. intros H.
  destruct (truthy (PStr title)); cbn [negb orb andb] in *.
  - destruct (truthy (PStr word_range)); cbn [negb orb andb] in *.
    + rewrite H. eexists. split; reflexivity.
    + eexists. split; reflexivity.
  - eexists. split; reflexivity.
Qed.

Lemma generate_pipeline title word_range session gc session' t :
  config_ok w title word_range = true ->
  pipeline repr w title word_range session = (Ok (gc, session'), t) ->
  generate repr w title word_range session = (Ok (Some gc, session'), t).
Proof.
  unfold config_ok, generate. intros H Hp.
  apply andb_prop in H as [H ->]. apply andb_prop in H as [-> ->]. simpl.
  unfold bind. rewrite Hp. simpl. by rewrite app_nil_r.
Qed.

Lemma store_image_summary title gc :
  exists u s t,
    store_image repr w title gc
    = (Ok (<["image_source" := s]> (<["image_url" := u]> gc)), t)
    /\ reported t = [] /\ image_pair u s.
Proof.
  destruct (generate_header_image_summary repr w title)
    as (u & s & t & H & Hr & Hp).
  rewrite (store_image_eq _ _ _ _ _ _ _ H).
  destruct Hp as [[Hu Hs]|[-> ->]].
  - rewrite Hu. eexists u, s, _. split_and!; [done| |by left].
    by rewrite reported_app, Hr.
  - simpl. eexists PNone, PNone, _. split_and!; [done| |by right].
    by rewrite reported_app, Hr.
Qed.

Lemma store_resources_summary title gc :
  exists c t,
    store_resources w title gc = (Ok c, t)
    /\ reported t = []
    /\ (c = gc \/ exists r, truthy r = true /\ c = <["resources" := r]> gc).
Proof.
  destruct (suggest_resources_summary w title) as (r & t & H & _ & Hr).
  rewrite (store_resources_eq _ _ _ _ _ H).
  destruct (truthy r) eqn:E; eexists _, _; split_and!; eauto.
  by rewrite reported_app, Hr.
Qed.

(** Every press of the button ends in exactly one of the four terminal
    states, and what was built and what is stored go with it. *)
Lemma generate_cases title word_range session :
  exists gc session' t,
    generate repr w title word_range session = (Ok (gc, session'), t)
    /\ ((reported t = [ConfigError] /\ gc = None /\ session' = session)
        \/ (reported t = [OutlineFailed] /\ gc = Some ∅
            /\ session' = session)
        \/ (reported t = [ArticleFailed]
            /\ (exists outline,
                  truthy outline = true
                  /\ gc = Some {[ "outline" := outline ]})
            /\ session' = session)
        \/ (reported t = [Complete]
            /\ exists c, gc = Some c /\ session' = Some c
                         /\ complete_content c)).
Proof.
  destruct (config_ok w title word_range) eqn:Hc.
  2: { destruct (generate_config_error title word_range session Hc)
         as (msg & -> & Hr).
       eexists _, _, _. split; [done|]. by left. }
  destruct (generate_outline_summary w title word_range)
    as (o & t1 & H1 & _ & Hr1).
  destruct (truthy o) eqn:Ho.
  2: { eexists _, _, _. split.
       - apply generate_pipeline; [done|].
         by eapply pipeline_outline_failed.
       - right; left. by rewrite !reported_app, Hr1. }
  destruct (write_article_summary repr w title o word_range)
    as (a & t2 & H2 & _ & Hr2).
  destruct (truthy a) eqn:Ha.
  2: { eexists _, _, _. split.
       - apply generate_pipeline; [done|].
         by eapply pipeline_article_failed.
       - right; right; left. rewrite !reported_app, Hr1, Hr2. eauto. }
  destruct (store_image_summary title
              (<["article" := a]> {[ "outline" := o ]}))
    as (u & s & t3 & H3 & Hr3 & Hp).
  destruct (store_resources_summary title
              (<["image_source" := s]>
                 (<["image_url" := u]>
                    (<["article" := a]> {[ "outline" := o ]}))))
    as (c & t4 & H4 & Hr4 & Hres).
  eexists _, _, _. split.
  - apply generate_pipeline; [done|]. by eapply pipeline_complete.
  - right; right; right. rewrite !reported_app, Hr1, Hr2, Hr3, Hr4.
    split; [done|]. exists c. split_and!; [done..|].
    exists o, a, u, s. split_and!; done.
Qed.

End Generate.

(** * The claims *)

(** C1.  [generate_header_image] asks the search client first.  When the
    search gives a URL (a truthy value: [if freepik_image:] takes an empty
    string like [None]), that URL is returned with the label ["Freepik"] and
    the trace is the search client's alone, so the image generator is never
    called.  When the search gives nothing, the generator is called next: a
    URL from it is returned with the label ["DALL-E"], and when it gives
    nothing either, the result is [(None, None)]. *)
Theorem generate_header_image_fallback repr w title :
  exists f t1,
    get_freepik_image repr w title = (Ok f, t1)
    /\ (forall r, ImagesGenerate r ∉ t1)
    /\ if truthy f
       then generate_header_image repr w title = (Ok (f, PStr "Freepik"), t1)
       else exists d t2,
           generate_dalle_image w title = (Ok d, t2)
           /\ generate_header_image repr w title
              = (Ok (if truthy d then (d, PStr "DALL-E") else (PNone, PNone)),
                 t1 ++ t2).
Proof.
  destruct (get_freepik_image_cases repr w title)
    as [[_ Hf]|[_ [[v Hf]|[e Hf]]]];
    pose proof (generate_header_image_eq repr w title _ _ Hf) as H;
    eexists _, _; (split; [exact Hf|]);
    (split; [intros r Hin; repeat (apply elem_of_cons in Hin as [?|Hin]);
             by try apply elem_of_nil in Hin|]).
  all: destruct (truthy _); [exact H|].
  all: destruct (generate_dalle_image_summary w title) as (d & t2 & Hd & _).
  all: exists d, t2; split; [exact Hd | by apply H].
Qed.

(** C2.  When the outline call gives nothing, the run stops there: the
    dictionary it built is empty (no article, no image URL, no image source,
    no resources), the only service called was the chat service with the
    outline prompt, the stored result is the one from before, and the user
    is told that the outline failed. *)
Theorem outline_failure_short_circuits
    repr w title word_range session outline t1 :
  config_ok w title word_range = true ->
  generate_outline w title word_range = (Ok outline, t1) ->
  truthy outline = false ->
  let run := generate repr w title word_range session in
  value run = Ok (Some ∅, session)
  /\ client_calls (trace run)
     = [ChatCreate
          (chat_request_of w (outline_prompt title word_range) (7 # 10))]
  /\ reported (trace run) = [OutlineFailed].
Proof.
  intros Hc H1 Ho run.
  destruct (generate_outline_summary w title word_range)
    as (o & t & H & Hcalls & Hr).
  rewrite H1 in H. injection H as <- <-.
  subst run.
  rewrite (generate_pipeline repr w _ _ _ _ _ _ Hc
             (pipeline_outline_failed repr w _ _ session _ _ H1 Ho)).
  unfold value, trace. cbn [fst snd].
  rewrite !client_calls_app, !reported_app, Hcalls, Hr. done.
Qed.

Lemma outline_failure_short_circuits_witness :
  value (generate Sample.repr Sample.no_chat "Solar" "600-800"
           (Some Sample.stored))
  = Ok (Some ∅, Some Sample.stored)
  /\ client_calls
       (trace (generate Sample.repr Sample.no_chat "Solar" "600-800"
                 (Some Sample.stored)))
     = [ChatCreate
          (chat_request_of Sample.no_chat (outline_prompt "Solar" "600-800")
             (7 # 10))]
  /\ reported
       (trace (generate Sample.repr Sample.no_chat "Solar" "600-800"
                 (Some Sample.stored)))
     = [OutlineFailed].
Proof.
  eapply (outline_failure_short_circuits Sample.repr Sample.no_chat
            "Solar" "600-800" (Some Sample.stored)); reflexivity.
Defined.

(** C3.  When the outline call gives a text and the article call gives
    nothing, the dictionary the run built holds the outline and nothing else,
    the only calls were the two chat calls, the user is told that the
    article failed, and the stored result is the one from before: nothing of
    the partial result is kept. *)
Theorem article_failure_short_circuits
    repr w title word_range session outline t1 article t2 :
  config_ok w title word_range = true ->
  generate_outline w title word_range = (Ok outline, t1) ->
  truthy outline = true ->
  write_article repr w title outline word_range = (Ok article, t2) ->
  truthy article = false ->
  let run := generate repr w title word_range session in
  value run = Ok (Some {[ "outline" := outline ]}, session)
  /\ client_calls (trace run)
     = [ChatCreate
          (chat_request_of w (outline_prompt title word_range) (7 # 10));
        ChatCreate
          (chat_request_of w (article_prompt repr title outline word_range)
             (8 # 10))]
  /\ reported (trace run) = [ArticleFailed].
Proof.
  intros Hc H1 Ho H2 Ha run.
  destruct (generate_outline_summary w title word_range)
    as (o & t & H & Hcalls1 & Hr1).
  rewrite H1 in H. injection H as <- <-.
  destruct (write_article_summary repr w title outline word_range)
    as (a & t & H & Hcalls2 & Hr2).
  rewrite H2 in H. injection H as <- <-.
  subst run.
  rewrite (generate_pipeline repr w _ _ _ _ _ _ Hc
             (pipeline_article_failed repr w _ _ session _ _ _ _
                H1 Ho H2 Ha)).
  unfold value, trace. cbn [fst snd].
  rewrite !client_calls_app, !reported_app, Hcalls1, Hcalls2, Hr1, Hr2. done.
Qed.

Lemma article_failure_short_circuits_witness :
  value (generate Sample.repr Sample.outline_only "Solar" "600-800"
           (Some Sample.stored))
  = Ok (Some {[ "outline" := PStr "I. Intro" ]}, Some Sample.stored)
  /\ client_calls
       (trace (generate Sample.repr Sample.outline_only "Solar" "600-800"
                 (Some Sample.stored)))
     = [ChatCreate
          (chat_request_of Sample.outline_only
             (outline_prompt "Solar" "600-800") (7 # 10));
        ChatCreate
          (chat_request_of Sample.outline_only
             (article_prompt Sample.repr "Solar" (PStr "I. Intro") "600-800")
             (8 # 10))]
  /\ reported
       (trace (generate Sample.repr Sample.outline_only "Solar" "600-800"
                 (Some Sample.stored)))
     = [ArticleFailed].
Proof.
  eapply (article_failure_short_circuits Sample.repr Sample.outline_only
            "Solar" "600-800" (Some Sample.stored)); reflexivity.
Defined.

(** C8.  With an empty title, an empty word range or no generation
    credential, the handler reports a configuration error and returns: no
    service is called, nothing is built and the stored result stays. *)
Theorem config_error_calls_nothing repr w title word_range session :
  title = "" \/ word_range = ""
  \/ truthy (py_of_option (getenv w "OPENAI_API_KEY")) = false ->
  let run := generate repr w title word_range session in
  value run = Ok (None, session)
  /\ client_calls (trace run) = []
  /\ reported (trace run) = [ConfigError].
Proof.
  intros H run.
  assert (Hc : config_ok w title word_range = false).
  { unfold config_ok. destruct H as [-> | [-> | ->]]; simpl;
      rewrite ?andb_false_r; done. }
  destruct (generate_config_error repr w title word_range session Hc)
    as (msg & Hg & Hr).
  subst run. by rewrite Hg.
Qed.

Lemma config_error_calls_nothing_witness :
  value (generate Sample.repr Sample.no_key "Solar" "600-800" None)
  = Ok (None, None)
  /\ client_calls
       (trace (generate Sample.repr Sample.no_key "Solar" "600-800" None))
     = []
  /\ reported
       (trace (generate Sample.repr Sample.no_key "Solar" "600-800" None))
     = [ConfigError].
Proof.
  apply (config_error_calls_nothing Sample.repr Sample.no_key
           "Solar" "600-800" None).
  right; right; reflexivity.
Defined.

(** ** The data model holds of what a run builds *)

Lemma truthy_not_None v : truthy v = true -> v <> PNone.
Proof. by intros H ->. Qed.

Lemma present_insert content k v :
  present (<[k := v]> content) k = match v with PNone => false | _ => true end.
Proof. unfold present. by rewrite lookup_insert_eq. Qed.

Lemma present_insert_ne content k k' v :
  k <> k' -> present (<[k := v]> content) k' = present content k'.
Proof. intros H. unfold present. by rewrite lookup_insert_ne. Qed.

Lemma present_truthy content k v :
  content !! k = Some v -> truthy v = true -> present content k = true.
Proof. unfold present. intros -> H. by destruct v. Qed.

Lemma result_inv_empty : result_inv ∅.
Proof. done. Qed.

Lemma result_inv_outline outline : result_inv {[ "outline" := outline ]}.
Proof. split; [|done]. unfold present. by rewrite lookup_singleton_ne. Qed.

Lemma image_pair_present u s :
  image_pair u s ->
  match s with PNone => false | _ => true end
  = match u with PNone => false | _ => true end.
Proof.
  intros [[Hu [-> | ->]]|[-> ->]]; [| |done]; by destruct u.
Qed.

Lemma complete_content_inv content : complete_content content -> result_inv content.
Proof.
  intros (o & a & u & s & Ho & Ha & Hp & Hc). cbn zeta in Hc.
  assert (Hbase : result_inv
            (<["image_source" := s]>
               (<["image_url" := u]>
                  (<["article" := a]> {[ "outline" := o ]})))).
  { split.
    - intros _. eapply present_truthy; [|exact Ho]. by simplify_map_eq.
    - rewrite present_insert, present_insert_ne, present_insert by done.
      by apply image_pair_present. }
  destruct Hc as [-> | (r & Hr & ->)]; [done|].
  destruct Hbase as [H1 H2].
  split; rewrite !(present_insert_ne _ "resources") by done; done.
Qed.

(** The session state the script has when it comes to the display. *)
Lemma before_display_session repr w h title word_range generate_button
    session session' t :
  before_display repr w h title word_range generate_button session
  = (Ok session', t) ->
  session' = session
  \/ exists gc tg,
      generate repr w title word_range session = (Ok (gc, session'), tg).
Proof.
  unfold before_display. intros H. inv_M H. subst.
  match goal with
  | Hb : (if generate_button then _ else _) = _ |- _ =>
      destruct generate_button; inv_M Hb; subst; [|by left]
  end.
  right.
  match goal with
  | Hg : generate _ _ _ _ _ = (Ok ?r, _) |- _ => destruct r; eauto
  end.
Qed.

Lemma script_session repr w h title word_range generate_button
    download_clicked session session' m :
  script repr w h title word_range generate_button download_clicked session
  = (session', m) ->
  session' = session
  \/ exists gc tg,
      generate repr w title word_range session = (Ok (gc, session'), tg).
Proof.
  unfold script. intros [= <- _].
  destruct (before_display repr w h title word_range generate_button session)
    as [[s'|e] t] eqn:Hb; cbn [fst]; [|by left].
  by apply before_display_session in Hb.
Qed.

(** C5.  A run that ends in [OutlineFailed] or [ArticleFailed] leaves
    [st.session_state.generated_content] as it was; the stored result is
    only ever replaced by a run that reports [Complete], and then by a
    dictionary with a truthy outline and a truthy article. *)
Theorem fatal_errors_keep_stored_result
    repr w title word_range session gc session' t :
  generate repr w title word_range session = (Ok (gc, session'), t) ->
  (reported t = [OutlineFailed] \/ reported t = [ArticleFailed] ->
   session' = session)
  /\ (session' <> session ->
      reported t = [Complete]
      /\ exists content, session' = Some content /\ complete_content content).
Proof.
  intros H.
  destruct (generate_cases repr w title word_range session)
    as (gc0 & s0 & t0 & Hg & Hcases).
  rewrite H in Hg. injection Hg as <- <- <-.
  destruct Hcases as [(Hr & _ & ->) | [(Hr & _ & ->)
    | [(Hr & _ & ->) | (Hr & c & _ & -> & Hc)]]]; split; try done.
  - intros [Hf | Hf]; by rewrite Hr in Hf.
  - eauto.
Qed.

Lemma fatal_errors_keep_stored_result_witness :
  exists gc session' t,
    generate Sample.repr Sample.no_chat "Solar" "600-800"
      (Some Sample.stored) = (Ok (gc, session'), t)
    /\ reported t = [OutlineFailed]
    /\ session' = Some Sample.stored.
Proof.
  eexists _, _, _. split; [reflexivity|]. split; [reflexivity|].
  refine (proj1 (fatal_errors_keep_stored_result Sample.repr Sample.no_chat
                   "Solar" "600-800" (Some Sample.stored) _ _ _ eq_refl) _).
  left. reflexivity.
Defined.

(** C6.  Every dictionary a run builds, and every dictionary the session
    state can come to hold, satisfies the data model: an article only with
    an outline, and an image source exactly when there is an image URL. *)
Theorem results_satisfy_data_model repr :
  (forall w title word_range session gc session' t,
      generate repr w title word_range session = (Ok (Some gc, session'), t) ->
      result_inv gc)
  /\ (forall session content,
        reachable repr session -> session = Some content ->
        result_inv content).
Proof.
  assert (Hstep : forall w title word_range session gc session' t,
    generate repr w title word_range session = (Ok (gc, session'), t) ->
    (forall c, gc = Some c -> result_inv c)
    /\ (session' = session
        \/ exists c, session' = Some c /\ result_inv c)).
  { intros w title word_range session gc session' t H.
    destruct (generate_cases repr w title word_range session)
      as (gc0 & s0 & t0 & Hg & Hcases).
    rewrite H in Hg. injection Hg as <- <- <-.
    destruct Hcases as [(_ & -> & ->) | [(_ & -> & ->)
      | [(_ & (o & _ & ->) & ->) | (_ & c & -> & -> & Hc)]]].
    - split; [done | by left].
    - split; [|by left]. intros c [= <-]. apply result_inv_empty.
    - split; [|by left]. intros c [= <-]. apply result_inv_outline.
    - apply complete_content_inv in Hc. split.
      + by intros c' [= <-].
      + right. eauto. }
  split.
  - intros w title word_range session gc session' t H.
    by apply (Hstep _ _ _ _ _ _ _ H).
  - intros session content Hreach. revert content.
    induction Hreach
      as [|w h title word_range gb dl session session' m _ IH Hs].
    + done.
    + intros content Hc.
      apply script_session in Hs as [-> | (gc & tg & Hg)]; [by apply IH|].
      destruct (Hstep _ _ _ _ _ _ _ Hg) as [_ [-> | (c & Heq & Hinv)]];
        [by apply IH|].
      rewrite Heq in Hc. by injection Hc as <-.
Qed.

Lemma results_satisfy_data_model_witness :
  exists gc session' t,
    generate Sample.repr Sample.good "Solar" "600-800" None
    = (Ok (Some gc, session'), t)
    /\ result_inv gc.
Proof.
  eexists _, _, _. split; [reflexivity|].
  exact (proj1 (results_satisfy_data_model Sample.repr) Sample.good
           "Solar" "600-800" None _ _ _ eq_refl).
Defined.

(** C10.  A run that got through the article step always completes and is
    stored, and it writes what is missing in two different ways: when
    neither image tier gave a URL, the keys ["image_url"] and
    ["image_source"] are there and hold [None]; when the resources call gave
    nothing, there is no ["resources"] key at all. *)
Theorem absent_fields_asymmetry
    repr w title word_range session outline t1 article t2 :
  config_ok w title word_range = true ->
  generate_outline w title word_range = (Ok outline, t1) ->
  truthy outline = true ->
  write_article repr w title outline word_range = (Ok article, t2) ->
  truthy article = true ->
  exists content t,
    generate repr w title word_range session
    = (Ok (Some content, Some content), t)
    /\ reported t = [Complete]
    /\ (forall f tf d td,
          get_freepik_image repr w title = (Ok f, tf) -> truthy f = false ->
          generate_dalle_image w title = (Ok d, td) -> truthy d = false ->
          content !! "image_url" = Some PNone
          /\ content !! "image_source" = Some PNone)
    /\ (forall r tr,
          suggest_resources w title = (Ok r, tr) -> truthy r = false ->
          content !! "resources" = None).
Proof.
  intros Hc H1 Ho H2 Ha.
  destruct (generate_outline_summary w title word_range)
    as (o' & t1' & H1' & _ & Hr1).
  rewrite H1 in H1'. injection H1' as <- <-.
  destruct (write_article_summary repr w title outline word_range)
    as (a' & t2' & H2' & _ & Hr2).
  rewrite H2 in H2'. injection H2' as <- <-.
  destruct (generate_header_image_summary repr w title)
    as (u & s & t3 & Hh & Hr3 & Hp).
  destruct (suggest_resources_summary w title) as (r & t4 & Hs & _ & Hr4).
  pose proof (store_image_eq repr w title
                (<["article" := article]> {[ "outline" := outline ]})
                _ _ _ Hh) as H3.
  assert (Himg : forall f tf d td,
    get_freepik_image repr w title = (Ok f, tf) -> truthy f = false ->
    generate_dalle_image w title = (Ok d, td) -> truthy d = false ->
    truthy u = false).
  { intros f tf d td Hf Ef Hd Ed.
    pose proof (generate_header_image_eq repr w title f tf Hf) as Hg.
    rewrite Ef in Hg. specialize (Hg d td Hd). rewrite Ed, Hh in Hg.
    by injection Hg as -> _ _. }
  destruct (truthy u) eqn:Eu; destruct (truthy r) eqn:Er;
    match type of H3 with
    | _ = (Ok ?c3, _) =>
        pose proof (store_resources_eq w title c3 _ _ Hs) as H4;
        rewrite Er in H4
    end;
    eexists _, _;
    (split;
     [apply generate_pipeline; [done|];
      by eapply (pipeline_complete repr w _ _ session _ _ _ _ _ _ _ _
                   H1 Ho H2 Ha H3 H4)|]);
    (split;
     [repeat first [rewrite reported_app | rewrite Hr1 | rewrite Hr2
                   | rewrite Hr3 | rewrite Hr4]; done|]);
    split.
  all: try (intros f tf d td Hf Ef Hd Ed;
            by specialize (Himg f tf d td Hf Ef Hd Ed)).
  all: try (intros r' tr' Hs' Er'; rewrite Hs in Hs';
            injection Hs' as <- <-; congruence).
  all: try (intros; by simplify_map_eq).
Qed.

Lemma absent_fields_asymmetry_witness :
  exists content t,
    generate Sample.repr Sample.text_only "Solar" "600-800" None
    = (Ok (Some content, Some content), t)
    /\ reported t = [Complete]
    /\ content !! "image_url" = Some PNone
    /\ content !! "image_source" = Some PNone
    /\ content !! "resources" = None.
Proof.
  destruct (absent_fields_asymmetry Sample.repr Sample.text_only
              "Solar" "600-800" None (PStr "text") _ (PStr "text") _
              eq_refl eq_refl eq_refl eq_refl eq_refl)
    as (content & t & Hg & Hr & Himg & Hres).
  exists content, t. split; [exact Hg|]. split; [exact Hr|].
  destruct (Himg PNone _ PNone _ eq_refl eq_refl eq_refl eq_refl) as [Hu Hs].
  split; [exact Hu|]. split; [exact Hs|].
  exact (Hres PNone _ eq_refl eq_refl).
Defined.

(** ** The search client *)

Lemma get_freepik_image_found repr w title v t :
  get_freepik_image repr w title = (Ok v, t) -> v <> PNone ->
  exists resp body,
    requests_get w
      (freepik_request repr (py_of_option (getenv w "FREEPIK_API_KEY")) title)
    = Ok resp
    /\ status_code resp = 200
    /\ json resp = Ok body
    /\ (shape_url "attributes" body = Some v
        \/ shape_url "images" body = Some v).
Proof.
  unfold get_freepik_image. intros H Hv.
  destruct (truthy _); simpl in H; [|by injection H as <- _].
  destruct (requests_get w _) as [resp|e]; simpl in H;
    [|by injection H as <- _].
  destruct (status_code resp =? 200) eqn:Hs; simpl in H;
    [|by injection H as <- _].
  destruct (json resp) as [body|e] eqn:Hj; simpl in H;
    [|by injection H as <- _].
  destruct (silent_cases _ (silent_parse_response body)) as [[v' Hp]|[e Hp]];
    rewrite Hp in H; simpl in H; [|by injection H as <- _].
  injection H as -> _.
  exists resp, body. split_and!; [done | by apply Z.eqb_eq | done |].
  by eapply parse_response_shape.
Qed.

(** C7.  [get_freepik_image] always returns a value and never raises.
    Without a search credential it returns [None] and does nothing at all,
    so no request is sent.  Whatever it returns other than [None] is the
    preview URL that a successfully parsed 200 response holds under one of
    the two shapes, so a response with a URL under neither gives [None].
    When the request itself raises, the exception ends in a warning and
    [None] is returned. *)
Theorem get_freepik_image_total repr w title :
  let api_key := py_of_option (getenv w "FREEPIK_API_KEY") in
  let req := freepik_request repr api_key title in
  (exists v t, get_freepik_image repr w title = (Ok v, t))
  /\ (truthy api_key = false ->
      get_freepik_image repr w title = (Ok PNone, []))
  /\ (forall v t,
        get_freepik_image repr w title = (Ok v, t) -> v <> PNone ->
        exists resp body,
          requests_get w req = Ok resp /\ status_code resp = 200
          /\ json resp = Ok body
          /\ (shape_url "attributes" body = Some v
              \/ shape_url "images" body = Some v))
  /\ (forall e,
        truthy api_key = true -> requests_get w req = Raise e ->
        get_freepik_image repr w title
        = (Ok PNone,
           [RequestsGet req;
            StWarning ("Freepik API error: " +:+ exn_str e)])).
Proof.
  intros api_key req. split_and!.
  - destruct (get_freepik_image_summary repr w title) as (v & t & H & _).
    eauto.
  - intros Hk. unfold get_freepik_image. fold api_key. by rewrite Hk.
  - intros v t. apply get_freepik_image_found.
  - intros e Hk He. unfold get_freepik_image. fold api_key req.
    rewrite Hk. simpl. by rewrite He.
Qed.

Lemma get_freepik_image_total_witness :
  get_freepik_image Sample.repr Sample.text_only "Solar" = (Ok PNone, [])
  /\ get_freepik_image Sample.repr Sample.search_down "Solar"
     = (Ok PNone,
        [RequestsGet
           (freepik_request Sample.repr (PStr "fp-test") "Solar");
         StWarning "Freepik API error: Read timed out."])
  /\ exists resp body,
      requests_get Sample.good
        (freepik_request Sample.repr (PStr "fp-test") "Solar") = Ok resp
      /\ status_code resp = 200
      /\ json resp = Ok body
      /\ (shape_url "attributes" body = Some (PStr "https://img.example/p.jpg")
          \/ shape_url "images" body = Some (PStr "https://img.example/p.jpg")).
Proof.
  split_and!.
  - destruct (get_freepik_image_total Sample.repr Sample.text_only "Solar")
      as (_ & H & _).
    apply H. reflexivity.
  - destruct (get_freepik_image_total Sample.repr Sample.search_down "Solar")
      as (_ & _ & _ & H).
    apply (H Sample.timeout); reflexivity.
  - destruct (get_freepik_image_total Sample.repr Sample.good "Solar")
      as (_ & _ & H & _).
    apply (H _ [RequestsGet
                  (freepik_request Sample.repr (PStr "fp-test") "Solar")]);
      [reflexivity | discriminate].
Defined.

(** ** Two worlds that differ in the answer to the resources prompt *)

Lemma outline_prompt_not_resources title word_range title' :
  outline_prompt title word_range <> resources_prompt title'.
Proof. discriminate. Qed.

Lemma article_prompt_not_resources repr title outline word_range title' :
  article_prompt repr title outline word_range <> resources_prompt title'.
Proof. discriminate. Qed.

Section Frame.

Variable repr : pyval -> string.
Variables w1 w2 : world.
Variable title : string.
Hypothesis Hagree : agree_except (resources_prompt title) w1 w2.

Lemma chat_agree content q err :
  content <> resources_prompt title ->
  chat w1 content q err = chat w2 content q err.
Proof.
  destruct Hagree as (Hg & _ & _ & Hc). intros Hne.
  unfold chat, call_chat_create, chat_request_of.
  rewrite Hg, Hc; done.
Qed.

Lemma get_freepik_image_agree :
  get_freepik_image repr w1 title = get_freepik_image repr w2 title.
Proof.
  destruct Hagree as (Hg & Hr & _). unfold get_freepik_image, call_requests_get.
  by rewrite Hg, Hr.
Qed.

Lemma generate_dalle_image_agree :
  generate_dalle_image w1 title = generate_dalle_image w2 title.
Proof.
  destruct Hagree as (_ & _ & Hi & _).
  unfold generate_dalle_image, call_images_generate. by rewrite Hi.
Qed.

Lemma store_image_agree gc :
  store_image repr w1 title gc = store_image repr w2 title gc.
Proof.
  unfold store_image, generate_header_image.
  by rewrite get_freepik_image_agree, generate_dalle_image_agree.
Qed.

Lemma config_ok_agree word_range :
  config_ok w1 title word_range = config_ok w2 title word_range.
Proof. destruct Hagree as (Hg & _). unfold config_ok. by rewrite Hg. Qed.

End Frame.

(** C9.  Take two runs on the same input in worlds that answer everything
    alike except, possibly, the resources prompt: in one the call may
    succeed and in the other fail.  The dictionaries the two runs build
    hold the same outline, article, image URL and image source. *)
Theorem resources_failure_frames_other_fields
    repr w1 w2 title word_range session c1 s1 t1 c2 s2 t2 :
  agree_except (resources_prompt title) w1 w2 ->
  generate repr w1 title word_range session = (Ok (Some c1, s1), t1) ->
  generate repr w2 title word_range session = (Ok (Some c2, s2), t2) ->
  c1 !! "outline" = c2 !! "outline"
  /\ c1 !! "article" = c2 !! "article"
  /\ c1 !! "image_url" = c2 !! "image_url"
  /\ c1 !! "image_source" = c2 !! "image_source".
Proof.
  intros Hag G1 G2.
  pose proof (config_ok_agree w1 w2 title Hag word_range) as Hcfg.
  destruct (config_ok w1 title word_range) eqn:Hc1.
  2: { destruct (generate_config_error repr w1 title word_range session Hc1)
         as (msg & Hg & _).
       rewrite Hg in G1. discriminate. }
  symmetry in Hcfg.
  destruct (generate_outline_summary w1 title word_range)
    as (o & to & Ho1 & _).
  assert (Ho2 : generate_outline w2 title word_range = (Ok o, to)).
  { rewrite <- Ho1. symmetry.
    apply (chat_agree w1 w2 title Hag), outline_prompt_not_resources. }
  destruct (truthy o) eqn:Eo.
  2: { rewrite (generate_pipeline repr w1 _ _ _ _ _ _ Hc1
                  (pipeline_outline_failed repr w1 _ _ session _ _ Ho1 Eo))
         in G1.
       rewrite (generate_pipeline repr w2 _ _ _ _ _ _ Hcfg
                  (pipeline_outline_failed repr w2 _ _ session _ _ Ho2 Eo))
         in G2.
       injection G1 as <- _ _. by injection G2 as <- _ _. }
  destruct (write_article_summary repr w1 title o word_range)
    as (a & ta & Ha1 & _).
  assert (Ha2 : write_article repr w2 title o word_range = (Ok a, ta)).
  { rewrite <- Ha1. symmetry.
    apply (chat_agree w1 w2 title Hag), article_prompt_not_resources. }
  destruct (truthy a) eqn:Ea.
  2: { rewrite (generate_pipeline repr w1 _ _ _ _ _ _ Hc1
                  (pipeline_article_failed repr w1 _ _ session _ _ _ _
                     Ho1 Eo Ha1 Ea)) in G1.
       rewrite (generate_pipeline repr w2 _ _ _ _ _ _ Hcfg
                  (pipeline_article_failed repr w2 _ _ session _ _ _ _
                     Ho2 Eo Ha2 Ea)) in G2.
       injection G1 as <- _ _. by injection G2 as <- _ _. }
  destruct (store_image_summary repr w1 title
              (<["article" := a]> {[ "outline" := o ]}))
    as (u & s & ti & Hi1 & _).
  pose proof Hi1 as Hi2. rewrite (store_image_agree repr w1 w2 title Hag) in Hi2.
  destruct (store_resources_summary w1 title
              (<["image_source" := s]>
                 (<["image_url" := u]>
                    (<["article" := a]> {[ "outline" := o ]}))))
    as (d1 & tr1 & Hr1 & _ & Hd1).
  destruct (store_resources_summary w2 title
              (<["image_source" := s]>
                 (<["image_url" := u]>
                    (<["article" := a]> {[ "outline" := o ]}))))
    as (d2 & tr2 & Hr2 & _ & Hd2).
  rewrite (generate_pipeline repr w1 _ _ _ _ _ _ Hc1
             (pipeline_complete repr w1 _ _ session _ _ _ _ _ _ _ _
                Ho1 Eo Ha1 Ea Hi1 Hr1)) in G1.
  rewrite (generate_pipeline repr w2 _ _ _ _ _ _ Hcfg
             (pipeline_complete repr w2 _ _ session _ _ _ _ _ _ _ _
                Ho2 Eo Ha2 Ea Hi2 Hr2)) in G2.
  injection G1 as <- _ _. injection G2 as <- _ _.
  destruct Hd1 as [-> | (r1 & _ & ->)]; destruct Hd2 as [-> | (r2 & _ & ->)];
    by simplify_map_eq.
Qed.

Lemma resources_failure_frames_other_fields_witness :
  exists c1 s1 t1 c2 s2 t2,
    generate Sample.repr Sample.good "Solar" "600-800" None
    = (Ok (Some c1, s1), t1)
    /\ generate Sample.repr Sample.no_resources "Solar" "600-800" None
       = (Ok (Some c2, s2), t2)
    /\ c1 !! "resources" = Some (PStr "text")
    /\ c2 !! "resources" = None
    /\ c1 !! "outline" = c2 !! "outline"
    /\ c1 !! "article" = c2 !! "article"
    /\ c1 !! "image_url" = c2 !! "image_url"
    /\ c1 !! "image_source" = c2 !! "image_source".
Proof.
  eexists _, _, _, _, _, _.
  split; [reflexivity|]. split; [reflexivity|].
  split; [reflexivity|]. split; [reflexivity|].
  eapply (resources_failure_frames_other_fields Sample.repr Sample.good
            Sample.no_resources "Solar" "600-800" None);
    [|reflexivity..].
  split_and!; try done.
  intros r Hr. unfold Sample.no_resources. cbn [chat_completions_create].
  destruct (String.eqb_spec (chat_content r) (resources_prompt "Solar"));
    [contradiction | reflexivity].
Defined.

(** ** The display and the markdown export *)

Lemma truthy_dict_lookup (content : pydict) k v :
  content !! k = Some v -> truthy (PDict content) = true.
Proof.
  intros Hk. simpl. apply negb_true_iff, Nat.eqb_neq.
  intros Hs. apply map_size_empty_iff in Hs. by rewrite Hs in Hk.
Qed.

Lemma progress_values_app (t1 t2 : list event) :
  progress_values (t1 ++ t2) = progress_values t1 ++ progress_values t2.
Proof. apply omap_app. Qed.

Lemma exported_app (t1 t2 : list event) :
  exported (t1 ++ t2) = exported t1 ++ exported t2.
Proof. apply omap_app. Qed.

(** The image part of the display: [content['image_url']] is only
    evaluated when [content.get('image_url')] was truthy, so the key is
    there, and [st.image] decides. *)
Lemma display_image_cases (content : pydict) :
  (truthy (get_default content "image_url" PNone) = false)
  \/ (exists u,
        content !! "image_url" = Some u /\ truthy u = true
        /\ truthy (get_default content "image_url" PNone) = true
        /\ lift (py_item_str (PDict content) "image_url") = ret u).
Proof.
  unfold get_default.
  destruct (content !! "image_url") as [u|] eqn:Hu; cbn [default];
    [|by left].
  destruct (truthy u) eqn:Eu; [right | by left].
  exists u. split_and!; [done..|]. unfold py_item_str. by rewrite Hu.
Qed.

(** Whatever [st.image] does, the display calls no service, reports no
    outcome and does not touch the progress bar. *)
Lemma display_quiet repr h title download_clicked session :
  let t := trace (display repr h title download_clicked session) in
  client_calls t = [] /\ reported t = [] /\ progress_values t = [].
Proof.
  unfold display. destruct session as [content|]; [|done].
  destruct (truthy (PDict content)); [|done].
  destruct (display_image_cases content) as [-> | (u & _ & _ & -> & ->)].
  - by destruct download_clicked.
  - rewrite bind_ret. unfold call_st_image.
    destruct (st_image h u (image_caption repr content) 700) as [[]|e];
      by destruct download_clicked.
Qed.

(** When [st.image] takes the stored image, the display returns, and it
    offers the export exactly when the download button was pressed and
    there is a result. *)
Lemma display_Ok repr h title download_clicked session :
  (forall content, session = Some content -> image_shows repr h content) ->
  value (display repr h title download_clicked session) = Ok tt
  /\ exported (trace (display repr h title download_clicked session))
     = match session with
       | Some content =>
           if truthy (PDict content) && download_clicked
           then [(markdown_content repr title content,
                  download_file_name title)]
           else []
       | None => []
       end.
Proof.
  intros Himg. unfold display. destruct session as [content|]; [|done].
  specialize (Himg content eq_refl).
  destruct (truthy (PDict content)); [|done].
  destruct (display_image_cases content) as [-> | (u & Hu & Et & -> & ->)].
  - by destruct download_clicked.
  - rewrite bind_ret. unfold call_st_image. rewrite (Himg u Hu Et).
    by destruct download_clicked.
Qed.

(** When the server options were set, the script comes to the display
    with the session state the handler left. *)
Lemma script_display repr w h title word_range generate_button
    download_clicked session session' t0 :
  before_display repr w h title word_range generate_button session
  = (Ok session', t0) ->
  script repr w h title word_range generate_button download_clicked session
  = (session',
     (value (display repr h title download_clicked session'),
      t0 ++ trace (display repr h title download_clicked session'))).
Proof.
  intros Hb. unfold script. rewrite Hb. cbn [fst]. f_equal.
  unfold bind. by destruct (display _ _ _ _ _) as [[[]|e] t].
Qed.

Lemma before_display_rerun repr w h title word_range session t0 :
  set_server_options w h = (Ok tt, t0) ->
  before_display repr w h title word_range false session = (Ok session, t0).
Proof.
  intros H0. unfold before_display, bind. rewrite H0. cbn.
  by rewrite app_nil_r.
Qed.

Lemma set_server_options_quiet w h :
  let t := trace (set_server_options w h) in
  client_calls t = [] /\ reported t = [] /\ progress_values t = []
  /\ exported t = [].
Proof.
  unfold set_server_options, call_set_option, bind, lift, emit, ret.
  destruct (getenv w "PORT") as [s|]; [destruct (int_of_str h s) as [p|e]|];
    try done.
  all: destruct (st_set_option h "server.port" _) as [[]|e]; [|done].
  all: by destruct (st_set_option h "server.address" _) as [[]|e].
Qed.




(** * Further properties of the script *)

(** ** The text calls and the image generator *)

(** X1.  A text call ([generate_outline], [write_article],
    [suggest_resources]) sends one request and never raises.  When the
    service raises, the user is shown the error text of the call followed
    by the text of the exception, and the call gives [None]; a completion
    without choices ends the same way, with the text of the [IndexError];
    otherwise the content of the first choice is returned, whatever the
    other choices are, and nothing is shown. *)
Theorem text_call_outcomes w content q err :
  let req := chat_request_of w content q in
  (forall e,
      chat_completions_create w req = Raise e ->
      chat w content q err
      = (Ok PNone, [ChatCreate req; StError (err +:+ exn_str e)]))
  /\ (chat_completions_create w req = Ok {| choices := [] |} ->
      chat w content q err
      = (Ok PNone,
         [ChatCreate req; StError (err +:+ "list index out of range")]))
  /\ (forall c cs,
        chat_completions_create w req = Ok {| choices := c :: cs |} ->
        chat w content q err
        = (Ok (py_of_option (message_content c)), [ChatCreate req])).
Proof.
  intros req. unfold chat, call_chat_create. fold req.
  split_and!.
  - intros e He. unfold bind, emit, lift, try_except. by rewrite He.
  - intros He. unfold bind, emit, lift, try_except. by rewrite He.
  - intros c cs He. unfold bind, emit, lift, try_except. by rewrite He.
Qed.

Lemma text_call_outcomes_witness :
  generate_outline Sample.no_chat "Solar" "600-800"
  = (Ok PNone,
     [ChatCreate
        (chat_request_of Sample.no_chat (outline_prompt "Solar" "600-800")
           (7 # 10));
      StError "Outline generation error: insufficient_quota"])
  /\ suggest_resources Sample.good "Solar"
     = (Ok (PStr "text"),
        [ChatCreate
           (chat_request_of Sample.good (resources_prompt "Solar") (7 # 10))]).
Proof.
  split.
  - destruct (text_call_outcomes Sample.no_chat
                (outline_prompt "Solar" "600-800") (7 # 10)
                "Outline generation error: ") as (H & _).
    exact (H Sample.quota eq_refl).
  - destruct (text_call_outcomes Sample.good (resources_prompt "Solar")
                (7 # 10) "Resource suggestion error: ") as (_ & _ & H).
    exact (H _ _ eq_refl).
Defined.

(** X2.  [generate_dalle_image] sends one request for one 1024x1024
    image of standard quality and never raises.  An exception of the
    service, and a response with an empty [data] list, are shown as a
    DALL-E error and give [None]; otherwise the URL of the first image is
    returned, which is [None] when that image carries no URL. *)
Theorem generate_dalle_image_outcomes w title :
  let req := dalle_request title in
  (img_n req = 1 /\ img_size req = "1024x1024"
   /\ img_quality req = "standard" /\ img_model req = "dall-e-3")
  /\ (forall e,
        images_generate w req = Raise e ->
        generate_dalle_image w title
        = (Ok PNone,
           [ImagesGenerate req;
            StError ("DALL-E generation error: " +:+ exn_str e)]))
  /\ (images_generate w req = Ok {| data := [] |} ->
      generate_dalle_image w title
      = (Ok PNone,
         [ImagesGenerate req;
          StError "DALL-E generation error: list index out of range"]))
  /\ (forall i rest,
        images_generate w req = Ok {| data := i :: rest |} ->
        generate_dalle_image w title
        = (Ok (py_of_option (url i)), [ImagesGenerate req])).
Proof.
  intros req. unfold generate_dalle_image, call_images_generate. fold req.
  split_and!; try done.
  - intros e He. unfold bind, emit, lift, try_except. by rewrite He.
  - intros He. unfold bind, emit, lift, try_except. by rewrite He.
  - intros i rest He. unfold bind, emit, lift, try_except. by rewrite He.
Qed.

Lemma generate_dalle_image_outcomes_witness :
  generate_dalle_image Sample.text_only "Solar"
  = (Ok PNone,
     [ImagesGenerate (dalle_request "Solar");
      StError "DALL-E generation error: insufficient_quota"])
  /\ generate_dalle_image Sample.good "Solar"
     = (Ok (PStr "https://img.example/g.png"),
        [ImagesGenerate (dalle_request "Solar")]).
Proof.
  split.
  - destruct (generate_dalle_image_outcomes Sample.text_only "Solar")
      as (_ & H & _).
    exact (H Sample.quota eq_refl).
  - destruct (generate_dalle_image_outcomes Sample.good "Solar")
      as (_ & _ & _ & H).
    exact (H _ _ eq_refl).
Defined.

(** ** The search client on the shapes of a response *)

Lemma lift_Ok {A : Type} (a : A) : lift (Ok a) = ret a.
Proof. done. Qed.

Section Shapes.

Variable repr : pyval -> string.
Variable w : world.
Variable title : string.

Let api_key := py_of_option (getenv w "FREEPIK_API_KEY").
Let req := freepik_request repr api_key title.

(** The client once the request was answered with status 200 and a body
    that parsed. *)
Lemma get_freepik_image_body resp body :
  truthy api_key = true -> requests_get w req = Ok resp ->
  status_code resp = 200 -> json resp = Ok body ->
  get_freepik_image repr w title
  = try_except (emit (RequestsGet req) ;; parse_response body)
      (fun e =>
         emit (StWarning ("Freepik API error: " +:+ exn_str e)) ;; ret PNone).
Proof.
  intros Hk Hr Hs Hj. unfold get_freepik_image, call_requests_get.
  fold api_key req. rewrite Hk. cbn [negb].
  unfold bind at 2. unfold emit, lift. rewrite Hr. cbn [app].
  f_equal. unfold bind at 1 3. rewrite Hs, Hj. cbn [Z.eqb Pos.eqb].
  unfold bind at 1. by destruct (parse_response body) as [[?|?] ?].
Qed.

Lemma parse_response_item bd item rest :
  bd !! "data" = Some (PList (item :: rest)) ->
  parse_response (PDict bd)
  = (c1 <- has_preview item "attributes" ;;
     if c1 : bool then preview_url item "attributes"
     else
       c2 <- has_preview item "images" ;;
       if c2 : bool then preview_url item "images" else ret PNone).
Proof.
  intros Hd. unfold parse_response, py_and. cbn [py_get py_item_str].
  rewrite Hd. cbn [default]. rewrite !lift_Ok, !bind_ret.
  cbn [truthy py_len length]. rewrite !lift_Ok, !bind_ret.
  replace (0 <? Z.of_nat (S (length rest))) with true
    by (symmetry; apply Z.ltb_lt; lia).
  cbn [id truthy]. rewrite bind_ret.
  change (py_item_int (PList (item :: rest)) 0) with (Ok item).
  by rewrite lift_Ok, bind_ret.
Qed.

Lemma has_preview_missing i k : i !! k = None -> has_preview (PDict i) k = ret false.
Proof.
  intros Hk. unfold has_preview, py_and. cbn [py_contains]. rewrite Hk.
  rewrite bool_decide_false by (by intros [? ?]).
  by rewrite lift_Ok, bind_ret.
Qed.

Lemma has_preview_dict i k xd :
  i !! k = Some (PDict xd) ->
  has_preview (PDict i) k = ret (bool_decide (is_Some (xd !! "preview"))).
Proof.
  intros Hk. unfold has_preview, py_and. cbn [py_contains py_item_str].
  rewrite Hk. rewrite bool_decide_true by eauto.
  rewrite !lift_Ok, !bind_ret. cbn [py_contains]. by rewrite lift_Ok.
Qed.

Lemma preview_url_dict i k xd pd :
  i !! k = Some (PDict xd) -> xd !! "preview" = Some (PDict pd) ->
  preview_url (PDict i) k = ret (default PNone (pd !! "url")).
Proof.
  intros Hk Hp. unfold preview_url. cbn [py_item_str]. rewrite Hk.
  rewrite lift_Ok, bind_ret. cbn [py_item_str]. rewrite Hp.
  by rewrite lift_Ok, bind_ret.
Qed.

Lemma shape_url_inv k body v :
  shape_url k body = Some v ->
  exists bd i rest xd pd,
    body = PDict bd /\ bd !! "data" = Some (PList (PDict i :: rest))
    /\ i !! k = Some (PDict xd) /\ xd !! "preview" = Some (PDict pd)
    /\ pd !! "url" = Some v.
Proof.
  unfold shape_url. intros H.
  destruct body as [| | | | | |bd]; try done. cbn [dict_entry] in H.
  destruct (bd !! "data") as [d|] eqn:Hd; [|done]. cbn in H.
  destruct d as [| | | | |[|item rest]|]; try done. cbn in H.
  destruct item as [| | | | | |i]; try done. cbn in H.
  destruct (i !! k) as [x|] eqn:Hx; [|done]. cbn in H.
  destruct x as [| | | | | |xd]; try done. cbn in H.
  destruct (xd !! "preview") as [p|] eqn:Hp; [|done]. cbn in H.
  destruct p as [| | | | | |pd]; try done. cbn in H.
  by exists bd, i, rest, xd, pd.
Qed.

End Shapes.

(** X3.  What [get_freepik_image] does with an answered request that
    holds no image.  A status other than 200 gives [None] and no warning,
    whatever the body is.  A body that does not parse gives [None] and
    the warning with the text of the exception.  A JSON object without a
    ["data"] entry, or whose entry is empty or null, gives [None] and no
    warning.  A body that is not a JSON object gives [None] and the
    warning of the [AttributeError] that [data.get] raises. *)
Theorem get_freepik_image_absent_cases repr w title resp :
  let api_key := py_of_option (getenv w "FREEPIK_API_KEY") in
  let req := freepik_request repr api_key title in
  truthy api_key = true ->
  requests_get w req = Ok resp ->
  (status_code resp <> 200 ->
   get_freepik_image repr w title = (Ok PNone, [RequestsGet req]))
  /\ (forall e,
        status_code resp = 200 -> json resp = Raise e ->
        get_freepik_image repr w title
        = (Ok PNone,
           [RequestsGet req;
            StWarning ("Freepik API error: " +:+ exn_str e)]))
  /\ (forall bd,
        status_code resp = 200 -> json resp = Ok (PDict bd) ->
        truthy (default PNone (bd !! "data")) = false ->
        get_freepik_image repr w title = (Ok PNone, [RequestsGet req]))
  /\ (forall body,
        status_code resp = 200 -> json resp = Ok body ->
        (forall bd, body <> PDict bd) ->
        get_freepik_image repr w title
        = (Ok PNone,
           [RequestsGet req;
            StWarning ("Freepik API error: '" +:+ type_name body
                       +:+ "' object has no attribute 'get'")])).
Proof.
  intros api_key req Hk Hr. split_and!.
  - intros Hs. unfold get_freepik_image, call_requests_get, bind, emit, lift.
    fold api_key req. rewrite Hk, Hr. cbn [negb].
    apply Z.eqb_neq in Hs. by rewrite Hs.
  - intros e Hs Hj. unfold get_freepik_image, call_requests_get, bind, emit, lift.
    fold api_key req. rewrite Hk, Hr. cbn [negb]. by rewrite Hs, Hj.
  - intros bd Hs Hj Hd.
    rewrite (get_freepik_image_body repr w title resp _ Hk Hr Hs Hj).
    unfold parse_response, py_and. cbn [py_get].
    rewrite lift_Ok, bind_ret, Hd. by rewrite !bind_ret.
  - intros body Hs Hj Hb.
    rewrite (get_freepik_image_body repr w title resp _ Hk Hr Hs Hj).
    destruct body; try done. by destruct (Hb d).
Qed.

Lemma get_freepik_image_absent_cases_witness :
  get_freepik_image Sample.repr Sample.not_found "Solar"
  = (Ok PNone,
     [RequestsGet (freepik_request Sample.repr (PStr "fp-test") "Solar")])
  /\ get_freepik_image Sample.repr Sample.no_results "Solar"
     = (Ok PNone,
        [RequestsGet (freepik_request Sample.repr (PStr "fp-test") "Solar")])
  /\ get_freepik_image Sample.repr Sample.list_body "Solar"
     = (Ok PNone,
        [RequestsGet (freepik_request Sample.repr (PStr "fp-test") "Solar");
         StWarning
           "Freepik API error: 'list' object has no attribute 'get'"]).
Proof.
  split_and!.
  - destruct (get_freepik_image_absent_cases Sample.repr Sample.not_found
                "Solar" _ eq_refl eq_refl) as (H & _).
    by apply H.
  - destruct (get_freepik_image_absent_cases Sample.repr Sample.no_results
                "Solar" _ eq_refl eq_refl) as (_ & _ & H & _).
    by eapply H.
  - destruct (get_freepik_image_absent_cases Sample.repr Sample.list_body
                "Solar" _ eq_refl eq_refl) as (_ & _ & _ & H).
    exact (H (PList []) eq_refl eq_refl ltac:(done)).
Defined.

(** X4.  The search client finds the preview URL under either shape.  On
    a 200 response whose body holds a URL under the first shape, that URL
    is returned.  A URL under the second shape is returned when the first
    result has no ["attributes"] entry, or has one that is an object
    without a ["preview"] entry.  In both cases no warning is shown. *)
Theorem get_freepik_image_finds_both_shapes repr w title resp body :
  let api_key := py_of_option (getenv w "FREEPIK_API_KEY") in
  let req := freepik_request repr api_key title in
  truthy api_key = true ->
  requests_get w req = Ok resp ->
  status_code resp = 200 ->
  json resp = Ok body ->
  (forall v,
      shape_url "attributes" body = Some v ->
      get_freepik_image repr w title = (Ok v, [RequestsGet req]))
  /\ (forall item v,
        first_result body = Some item ->
        dict_entry item "attributes" = None
        \/ (exists xd, dict_entry item "attributes" = Some (PDict xd)
                       /\ xd !! "preview" = None) ->
        shape_url "images" body = Some v ->
        get_freepik_image repr w title = (Ok v, [RequestsGet req])).
Proof.
  intros api_key req Hk Hr Hs Hj.
  rewrite (get_freepik_image_body repr w title resp _ Hk Hr Hs Hj).
  split.
  - intros v Hv.
    apply shape_url_inv in Hv
      as (bd & i & rest & xd & pd & -> & Hd & Hx & Hp & Hu).
    rewrite (parse_response_item _ _ _ Hd), (has_preview_dict _ _ _ Hx).
    rewrite bool_decide_true by eauto.
    rewrite bind_ret, (preview_url_dict _ _ _ _ Hx Hp), Hu. done.
  - intros item v Hi Hattr Hv.
    apply shape_url_inv in Hv
      as (bd & i & rest & xd & pd & -> & Hd & Hx & Hp & Hu).
    unfold first_result in Hi. cbn [dict_entry] in Hi. rewrite Hd in Hi.
    injection Hi as <-.
    rewrite (parse_response_item _ _ _ Hd).
    assert (Hno : has_preview (PDict i) "attributes" = ret false).
    { destruct Hattr as [Hn | (yd & Hy & Hn)]; cbn [dict_entry] in *.
      - by apply has_preview_missing.
      - rewrite (has_preview_dict _ _ _ Hy), Hn.
        by rewrite bool_decide_false by (by intros [? ?]). }
    rewrite Hno, bind_ret, (has_preview_dict _ _ _ Hx).
    rewrite bool_decide_true by eauto.
    rewrite bind_ret, (preview_url_dict _ _ _ _ Hx Hp), Hu. done.
Qed.

Lemma get_freepik_image_finds_both_shapes_witness :
  get_freepik_image Sample.repr Sample.good "Solar"
  = (Ok (PStr "https://img.example/p.jpg"),
     [RequestsGet (freepik_request Sample.repr (PStr "fp-test") "Solar")])
  /\ get_freepik_image Sample.repr Sample.second_shape "Solar"
     = (Ok (PStr "https://img.example/q.jpg"),
        [RequestsGet (freepik_request Sample.repr (PStr "fp-test") "Solar")]).
Proof.
  split.
  - destruct (get_freepik_image_finds_both_shapes Sample.repr Sample.good
                "Solar" _ _ eq_refl eq_refl eq_refl eq_refl) as (H & _).
    by apply H.
  - destruct (get_freepik_image_finds_both_shapes Sample.repr
                Sample.second_shape "Solar" _ _ eq_refl eq_refl eq_refl
                eq_refl) as (_ & H).
    eapply H; [reflexivity | by left | reflexivity].
Defined.

(** X5.  The first shape is decided by its keys, not by its URL: when the
    first result has an ["attributes"] object with a ["preview"] object
    that holds no ["url"], the client returns [None] without looking at
    ["images"], so a URL that the same result holds under the second
    shape is not used. *)
Theorem get_freepik_image_first_shape_shadows
    repr w title resp body item xd pd :
  let api_key := py_of_option (getenv w "FREEPIK_API_KEY") in
  let req := freepik_request repr api_key title in
  truthy api_key = true ->
  requests_get w req = Ok resp ->
  status_code resp = 200 ->
  json resp = Ok body ->
  first_result body = Some item ->
  dict_entry item "attributes" = Some (PDict xd) ->
  xd !! "preview" = Some (PDict pd) ->
  pd !! "url" = None ->
  get_freepik_image repr w title = (Ok PNone, [RequestsGet req]).
Proof.
  intros api_key req Hk Hr Hs Hj Hi Hx Hp Hu.
  rewrite (get_freepik_image_body repr w title resp _ Hk Hr Hs Hj).
  unfold first_result in Hi.
  destruct body as [| | | | | |bd]; try done. cbn [dict_entry] in Hi.
  destruct (bd !! "data") as [d|] eqn:Hd; [|done]. cbn in Hi.
  destruct d as [| | | | |[|item' rest]|]; try done. cbn in Hi.
  injection Hi as ->.
  destruct item as [| | | | | |i]; try done. cbn [dict_entry] in Hx.
  rewrite (parse_response_item _ _ _ Hd), (has_preview_dict _ _ _ Hx).
  rewrite bool_decide_true by eauto.
  rewrite bind_ret, (preview_url_dict _ _ _ _ Hx Hp), Hu. done.
Qed.

Lemma get_freepik_image_first_shape_shadows_witness :
  shape_url "images" Sample.shadowed_body
  = Some (PStr "https://img.example/q.jpg")
  /\ get_freepik_image Sample.repr Sample.shadowed "Solar"
     = (Ok PNone,
        [RequestsGet (freepik_request Sample.repr (PStr "fp-test") "Solar")]).
Proof.
  split; [reflexivity|].
  eapply (get_freepik_image_first_shape_shadows Sample.repr Sample.shadowed
            "Solar" _ Sample.shadowed_body _ _ ∅);
    reflexivity.
Defined.

(** ** The script as a whole *)

Lemma before_display_Ok repr w h title word_range generate_button session t0 :
  set_server_options w h = (Ok tt, t0) ->
  exists session' t,
    before_display repr w h title word_range generate_button session
    = (Ok session', t0 ++ t).
Proof.
  intros H0. unfold before_display. destruct generate_button.
  - destruct (generate_cases repr w title word_range session)
      as (gc & s' & t & Hg & _).
    exists s', t. unfold bind. rewrite H0, Hg. cbn. by rewrite app_nil_r.
  - exists session, []. unfold bind. by rewrite H0.
Qed.

Lemma before_display_Raise repr w h title word_range generate_button session
    e t0 :
  set_server_options w h = (Raise e, t0) ->
  before_display repr w h title word_range generate_button session
  = (Raise e, t0).
Proof. intros H0. unfold before_display, bind. by rewrite H0. Qed.

(** X6.  Only the page's own library calls can make an execution raise.
    Whatever the services answer or raise, whatever the user entered and
    whatever the session holds, an execution returns when the server
    options were set and [st.image] takes the image of the result that
    the execution comes to display. *)
Theorem script_raises_only_in_library_calls
    repr w h title word_range generate_button download_clicked session :
  let run :=
    script repr w h title word_range generate_button download_clicked
      session in
  value (set_server_options w h) = Ok tt ->
  (forall content, run.1 = Some content -> image_shows repr h content) ->
  value run.2 = Ok tt.
Proof.
  intros run H0 Himg. subst run.
  destruct (set_server_options w h) as [r0 t0] eqn:E0.
  cbn [value fst] in H0. subst r0.
  destruct (before_display_Ok repr w h title word_range generate_button
              session t0 E0) as (session' & t & Hb).
  rewrite (script_display _ _ _ _ _ _ download_clicked _ _ _ Hb) in Himg |- *.
  cbn [fst snd value] in *.
  by destruct (display_Ok repr h title download_clicked session' Himg).
Qed.

Lemma script_raises_only_in_library_calls_witness :
  value (script Sample.repr Sample.no_chat Sample.page "Solar" "600-800"
           true true (Some Sample.stored)).2
  = Ok tt.
Proof.
  apply (script_raises_only_in_library_calls Sample.repr Sample.no_chat
           Sample.page "Solar" "600-800" true true (Some Sample.stored)).
  - reflexivity.
  - intros content [= <-] u Hu. discriminate Hu.
Defined.

(** X7.  An execution in which the generate button was not pressed calls
    no service, reports no outcome, does not touch the progress bar and
    leaves the stored result as it is, whether it returns or raises; what
    it does depends neither on the word range nor on the services. *)
Theorem rerun_without_generate_is_inert
    repr w h title word_range download_clicked session :
  let run := script repr w h title word_range false download_clicked session in
  run.1 = session
  /\ client_calls (trace run.2) = []
  /\ reported (trace run.2) = []
  /\ progress_values (trace run.2) = []
  /\ (forall w' word_range',
        getenv w' "PORT" = getenv w "PORT" ->
        script repr w' h title word_range' false download_clicked session
        = run).
Proof.
  intros run. subst run.
  assert (Hw : forall w', getenv w' "PORT" = getenv w "PORT" ->
                 set_server_options w' h = set_server_options w h).
  { intros w' Hp. unfold set_server_options. by rewrite Hp. }
  destruct (set_server_options_quiet w h) as (Hc0 & Hr0 & Hp0 & _).
  destruct (set_server_options w h) as [[[]|e] t0] eqn:E0;
    cbn [trace snd] in Hc0, Hr0, Hp0.
  - rewrite (script_display _ _ _ _ _ _ download_clicked _ _ _
               (before_display_rerun repr w h title word_range session t0 E0)).
    cbn [fst snd trace].
    destruct (display_quiet repr h title download_clicked session)
      as (Hc & Hr & Hp).
    rewrite client_calls_app, reported_app, progress_values_app.
    rewrite Hc0, Hr0, Hp0, Hc, Hr, Hp. split_and!; try done.
    intros w' word_range' Hport.
    apply script_display, before_display_rerun. by rewrite (Hw w' Hport).
  - assert (Hs : forall w' word_range',
                getenv w' "PORT" = getenv w "PORT" ->
                script repr w' h title word_range' false download_clicked
                  session = (session, (Raise e, t0))).
    { intros w' word_range' Hport. unfold script.
      rewrite (before_display_Raise repr w' h title word_range' false
                 session e t0) by (by rewrite (Hw w' Hport)).
      done. }
    rewrite (Hs w word_range eq_refl). cbn [fst snd trace].
    split_and!; try done.
Qed.

(** X17.  When the server options cannot be set (the [PORT] variable is
    not a number, or [st.set_option] refuses an option), the execution
    raises there and nothing else happens: no service is called, nothing
    is shown or exported, and the stored result stays, also when the
    generate button was pressed.  Without a [PORT] variable the port that
    is set is 8501. *)
Theorem server_options_failure_stops_the_script
    repr w h title word_range generate_button download_clicked session :
  let run :=
    script repr w h title word_range generate_button download_clicked
      session in
  (forall e t0,
      set_server_options w h = (Raise e, t0) ->
      run = (session, (Raise e, t0))
      /\ client_calls t0 = [] /\ reported t0 = [] /\ exported t0 = [])
  /\ (forall s e,
        getenv w "PORT" = Some s -> int_of_str h s = Raise e ->
        run = (session, (Raise e, [])))
  /\ (forall e,
        getenv w "PORT" = None ->
        st_set_option h "server.port" (PInt 8501) = Raise e ->
        run = (session, (Raise e, []))).
Proof.
  intros run. subst run.
  assert (Hstop : forall e t0,
    set_server_options w h = (Raise e, t0) ->
    script repr w h title word_range generate_button download_clicked session
    = (session, (Raise e, t0))).
  { intros e t0 E0. unfold script.
    by rewrite (before_display_Raise repr w h title word_range
                  generate_button session e t0 E0). }
  split_and!.
  - intros e t0 E0. split; [by apply Hstop|].
    destruct (set_server_options_quiet w h) as (Hc & Hr & _ & He).
    by rewrite E0 in Hc, Hr, He.
  - intros s e Hp Hi. apply Hstop.
    unfold set_server_options, bind, lift. by rewrite Hp, Hi.
  - intros e Hp Hs. apply Hstop.
    unfold set_server_options, call_set_option, bind, lift, ret.
    by rewrite Hp, Hs.
Qed.

Lemma server_options_failure_stops_the_script_witness :
  script Sample.repr Sample.good Sample.fixed_options "Solar" "600-800"
    true false (Some Sample.stored)
  = (Some Sample.stored,
     (Raise (Exn StreamlitAPIException
               "server.port cannot be set on the fly."), [])).
Proof.
  destruct (server_options_failure_stops_the_script Sample.repr Sample.good
              Sample.fixed_options "Solar" "600-800" true false
              (Some Sample.stored)) as (H & _).
  destruct (H _ _ eq_refl) as (Hrun & _). exact Hrun.
Defined.

(** ** A run that completes, event by event *)

Lemma generate_complete_eq repr w title word_range session
    o t1 a t2 u s t3 r t4 :
  config_ok w title word_range = true ->
  generate_outline w title word_range = (Ok o, t1) -> truthy o = true ->
  write_article repr w title o word_range = (Ok a, t2) -> truthy a = true ->
  generate_header_image repr w title = (Ok (u, s), t3) ->
  suggest_resources w title = (Ok r, t4) ->
  let img := if truthy u then (u, s) else (PNone, PNone) in
  let base :=
    <["image_source" := img.2]>
      (<["image_url" := img.1]>
         (<["article" := a]> {[ "outline" := o ]})) in
  let c := if truthy r then <["resources" := r]> base else base in
  generate repr w title word_range session
  = (Ok (Some c, Some c),
     [StProgress 0; StatusInfo "📋 Generating article outline...";
      StProgress 20]
     ++ t1
     ++ [StProgress 40; StatusInfo "✍️ Writing full article..."]
     ++ t2
     ++ [StProgress 60; StatusInfo "🖼️ Searching for header image..."]
     ++ (t3 ++ [if truthy u then StProgress 80
                else StWarning "⚠️ Could not generate header image."])
     ++ [StatusInfo "📚 Gathering related resources..."]
     ++ (t4 ++ (if truthy r then [StProgress 100] else []))
     ++ [StatusSuccess "✅ Article generation complete!";
         ProgressEmpty; StatusEmpty]).
Proof.
  intros Hc H1 Ho H2 Ha H3 H4 img base c.
  apply generate_pipeline; [done|].
  assert (H5 : store_image repr w title
                 (<["article" := a]> {[ "outline" := o ]})
               = (Ok base,
                  t3 ++ [if truthy u then StProgress 80
                         else StWarning "⚠️ Could not generate header image."])).
  { rewrite (store_image_eq repr w title _ u s t3 H3).
    subst base img. by destruct (truthy u). }
  assert (H6 : store_resources w title base
               = (Ok c, t4 ++ (if truthy r then [StProgress 100] else []))).
  { rewrite (store_resources_eq w title _ r t4 H4).
    subst c. destruct (truthy r); [done|]. by rewrite app_nil_r. }
  exact (pipeline_complete repr w title word_range session o t1 a t2
           base _ c _ H1 Ho H2 Ha H5 H6).
Qed.

(** X8.  Which services the image step calls.  The search is requested
    once when a search credential is set and not at all otherwise; the
    image generator is requested once when the search gave nothing and
    not at all otherwise.  There is no second attempt at either. *)
Theorem generate_header_image_calls repr w title :
  let api_key := py_of_option (getenv w "FREEPIK_API_KEY") in
  exists f t,
    get_freepik_image repr w title = (Ok f, t)
    /\ client_calls (trace (generate_header_image repr w title))
       = (if truthy api_key
          then [RequestsGet (freepik_request repr api_key title)]
          else [])
         ++ (if truthy f
             then []
             else [ImagesGenerate (dalle_request title)]).
Proof.
  intros api_key.
  destruct (get_freepik_image_cases repr w title)
    as [[Hk Hf]|[Hk [[v Hf]|[e Hf]]]]; fold api_key in Hk; rewrite Hk;
    eexists _, _; (split; [exact Hf|]);
    pose proof (generate_header_image_eq repr w title _ _ Hf) as H.
  2: destruct (truthy v); [by rewrite H|].
  all: cbn [truthy] in H.
  all: destruct (generate_dalle_image_summary w title) as (d & t2 & Hd & _ & Hc).
  all: rewrite (H d t2 Hd); unfold trace; cbn [snd].
  all: by rewrite client_calls_app, Hc.
Qed.

Lemma generate_header_image_calls_aux repr w title :
  truthy (py_of_option (getenv w "FREEPIK_API_KEY")) = false ->
  client_calls (trace (generate_header_image repr w title))
  = [ImagesGenerate (dalle_request title)].
Proof.
  intros Hk.
  destruct (get_freepik_image_cases repr w title) as [[_ Hf]|[Hk' _]];
    [|by rewrite Hk in Hk'].
  pose proof (generate_header_image_eq repr w title _ _ Hf) as H.
  cbn [truthy] in H.
  destruct (generate_dalle_image_summary w title) as (d & t2 & Hd & _ & Hc).
  by rewrite (H d t2 Hd).
Qed.

(** X9.  The services a run that completes calls, in order: the chat
    service with the outline prompt, then with the article prompt, then
    what the image step calls, then the chat service with the resources
    prompt; nothing is called twice.  Without a search credential these
    are three text calls and one image generation, and no search. *)
Theorem complete_run_call_order
    repr w title word_range session o t1 a t2 :
  config_ok w title word_range = true ->
  generate_outline w title word_range = (Ok o, t1) -> truthy o = true ->
  write_article repr w title o word_range = (Ok a, t2) -> truthy a = true ->
  let calls := client_calls (trace (generate repr w title word_range session)) in
  let text content q := ChatCreate (chat_request_of w content q) in
  calls
  = [text (outline_prompt title word_range) (7 # 10);
     text (article_prompt repr title o word_range) (8 # 10)]
    ++ client_calls (trace (generate_header_image repr w title))
    ++ [text (resources_prompt title) (7 # 10)]
  /\ (truthy (py_of_option (getenv w "FREEPIK_API_KEY")) = false ->
      calls
      = [text (outline_prompt title word_range) (7 # 10);
         text (article_prompt repr title o word_range) (8 # 10);
         ImagesGenerate (dalle_request title);
         text (resources_prompt title) (7 # 10)]).
Proof.
  intros Hc H1 Ho H2 Ha calls text.
  destruct (generate_outline_summary w title word_range)
    as (o' & t1' & H1' & Hc1 & _).
  rewrite H1 in H1'. injection H1' as <- <-.
  destruct (write_article_summary repr w title o word_range)
    as (a' & t2' & H2' & Hc2 & _).
  rewrite H2 in H2'. injection H2' as <- <-.
  destruct (generate_header_image_summary repr w title)
    as (u & s & t3 & H3 & _).
  destruct (suggest_resources_summary w title) as (r & t4 & H4 & Hc4 & _).
  assert (Hcalls : calls
    = [text (outline_prompt title word_range) (7 # 10);
       text (article_prompt repr title o word_range) (8 # 10)]
      ++ client_calls (trace (generate_header_image repr w title))
      ++ [text (resources_prompt title) (7 # 10)]).
  { subst calls.
    rewrite (generate_complete_eq repr w title word_range session
               _ _ _ _ _ _ _ _ _ Hc H1 Ho H2 Ha H3 H4).
    rewrite H3. unfold trace. cbn [snd].
    rewrite !client_calls_app, Hc1, Hc2, Hc4.
    by destruct (truthy u), (truthy r); cbn; rewrite !app_nil_r. }
  split; [exact Hcalls|].
  intros Hk. rewrite Hcalls.
  by rewrite (generate_header_image_calls_aux repr w title Hk).
Qed.

Lemma complete_run_call_order_witness :
  client_calls
    (trace (generate Sample.repr Sample.text_only "Future of Solar Power"
              "600-800" None))
  = [ChatCreate
       (chat_request_of Sample.text_only
          (outline_prompt "Future of Solar Power" "600-800") (7 # 10));
     ChatCreate
       (chat_request_of Sample.text_only
          (article_prompt Sample.repr "Future of Solar Power" (PStr "text")
             "600-800") (8 # 10));
     ImagesGenerate (dalle_request "Future of Solar Power");
     ChatCreate
       (chat_request_of Sample.text_only
          (resources_prompt "Future of Solar Power") (7 # 10))].
Proof.
  destruct (complete_run_call_order Sample.repr Sample.text_only
              "Future of Solar Power" "600-800" None (PStr "text") _
              (PStr "text") _ eq_refl eq_refl eq_refl eq_refl eq_refl)
    as [_ H].
  exact (H eq_refl).
Defined.

(** ** Progress and clean-up *)

Lemma chat_progress w content q err :
  progress_values (trace (chat w content q err)) = [].
Proof. by destruct (chat_cases w content q err) as [[v ->]|[e ->]]. Qed.

Lemma generate_header_image_progress repr w title :
  progress_values (trace (generate_header_image repr w title)) = [].
Proof.
  destruct (get_freepik_image_cases repr w title)
    as [[_ Hf]|[_ [[v Hf]|[e Hf]]]];
    pose proof (generate_header_image_eq repr w title _ _ Hf) as H.
  2: destruct (truthy v); [by rewrite H|].
  all: cbn [truthy] in H.
  all: destruct (generate_dalle_image_cases w title) as [[d Hd]|[e' Hd]].
  all: by rewrite (H _ _ Hd).
Qed.

(** X10.  The values the progress bar takes follow what the run stored:
    0 and 20 when the pipeline starts, 40 once the outline is stored, 60
    once the article is, 80 only when an image was found and 100 only
    when resources were stored.  So a run that completes without
    resources never shows 100, and a configuration error shows no
    progress at all. *)
Theorem progress_follows_the_steps
    repr w title word_range session gc session' t :
  generate repr w title word_range session = (Ok (gc, session'), t) ->
  progress_values t
  = match gc with
    | None => []
    | Some c =>
        [0; 20]
        ++ (if bool_decide (is_Some (c !! "outline")) then [40] else [])
        ++ (if bool_decide (is_Some (c !! "article")) then [60] else [])
        ++ (if present c "image_url" then [80] else [])
        ++ (if bool_decide (is_Some (c !! "resources")) then [100] else [])
    end.
Proof.
  intros H.
  destruct (config_ok w title word_range) eqn:Hc.
  2: { destruct (generate_config_error repr w title word_range session Hc)
         as (msg & Hg & _).
       rewrite Hg in H. by injection H as <- <- <-. }
  destruct (generate_outline_summary w title word_range)
    as (o & t1 & H1 & _).
  assert (Hp1 : progress_values t1 = []).
  { pose proof (chat_progress w (outline_prompt title word_range) (7 # 10)
                  "Outline generation error: ") as Hp.
    unfold generate_outline in H1. by rewrite H1 in Hp. }
  destruct (truthy o) eqn:Ho.
  2: { rewrite (generate_pipeline repr w _ _ _ _ _ _ Hc
                  (pipeline_outline_failed repr w _ _ session _ _ H1 Ho))
         in H.
       injection H as <- <- <-.
       unfold progress_values in *. cbn. by rewrite !omap_app, Hp1. }
  destruct (write_article_summary repr w title o word_range)
    as (a & t2 & H2 & _).
  assert (Hp2 : progress_values t2 = []).
  { pose proof (chat_progress w (article_prompt repr title o word_range)
                  (8 # 10) "Article writing error: ") as Hp.
    unfold write_article in H2. by rewrite H2 in Hp. }
  destruct (truthy a) eqn:Ha.
  2: { rewrite (generate_pipeline repr w _ _ _ _ _ _ Hc
                  (pipeline_article_failed repr w _ _ session _ _ _ _
                     H1 Ho H2 Ha)) in H.
       injection H as <- <- <-.
       unfold progress_values in *. cbn. rewrite !omap_app, Hp1. cbn.
       rewrite !omap_app, Hp2. unfold present. by simplify_map_eq. }
  destruct (generate_header_image_summary repr w title)
    as (u & s & t3 & H3 & _ & Hpair).
  pose proof (generate_header_image_progress repr w title) as Hp3.
  rewrite H3 in Hp3. cbn [trace snd] in Hp3.
  destruct (suggest_resources_summary w title) as (r & t4 & H4 & _).
  assert (Hp4 : progress_values t4 = []).
  { pose proof (chat_progress w (resources_prompt title) (7 # 10)
                  "Resource suggestion error: ") as Hp.
    unfold suggest_resources in H4. by rewrite H4 in Hp. }
  rewrite (generate_complete_eq repr w title word_range session
             _ _ _ _ _ _ _ _ _ Hc H1 Ho H2 Ha H3 H4) in H.
  cbv zeta in H. injection H as <- <- <-.
  unfold progress_values in *. cbn. rewrite !omap_app, Hp1. cbn.
  rewrite !omap_app, Hp2. cbn. rewrite !omap_app, Hp3. cbn.
  rewrite !omap_app, Hp4. unfold present.
  destruct Hpair as [[Hu _]|[-> ->]].
  - rewrite Hu. destruct (truthy r); simplify_map_eq; by destruct u.
  - cbn [truthy]. destruct (truthy r); by simplify_map_eq.
Qed.

Lemma progress_follows_the_steps_witness :
  reported (trace (generate Sample.repr Sample.text_only "Solar" "600-800" None))
  = [Complete]
  /\ progress_values
       (trace (generate Sample.repr Sample.text_only "Solar" "600-800" None))
     = [0; 20; 40; 60]
  /\ progress_values
       (trace (generate Sample.repr Sample.good "Solar" "600-800" None))
     = [0; 20; 40; 60; 80; 100].
Proof.
  split; [reflexivity|]. split.
  - exact (progress_follows_the_steps Sample.repr Sample.text_only "Solar"
             "600-800" None _ _ _ eq_refl).
  - exact (progress_follows_the_steps Sample.repr Sample.good "Solar"
             "600-800" None _ _ _ eq_refl).
Defined.

(** X11.  A run that passed the configuration check always cleans up:
    its trace begins with the progress bar at 0 and ends with the outcome
    (one of the two failure messages or the success message) followed by
    the clearing of the progress bar and of the status text, also when
    the run failed.  No outcome is reported before that last message. *)
Theorem pipeline_always_cleans_up repr w title word_range session :
  config_ok w title word_range = true ->
  exists t outcome,
    trace (generate repr w title word_range session)
    = StProgress 0 :: t ++ [outcome; ProgressEmpty; StatusEmpty]
    /\ is_Some (report_of outcome)
    /\ reported t = [].
Proof.
  intros Hc.
  destruct (generate_outline_summary w title word_range)
    as (o & t1 & H1 & _ & Hr1).
  destruct (truthy o) eqn:Ho.
  2: { rewrite (generate_pipeline repr w _ _ _ _ _ _ Hc
                  (pipeline_outline_failed repr w _ _ session _ _ H1 Ho)).
       eexists (_ :: _ :: t1), _. cbn [trace snd app].
       split; [reflexivity|]. split; [by eexists|]. exact Hr1. }
  destruct (write_article_summary repr w title o word_range)
    as (a & t2 & H2 & _ & Hr2).
  destruct (truthy a) eqn:Ha.
  2: { rewrite (generate_pipeline repr w _ _ _ _ _ _ Hc
                  (pipeline_article_failed repr w _ _ session _ _ _ _
                     H1 Ho H2 Ha)).
       eexists (_ :: _ :: t1 ++ _ :: _ :: t2), _. cbn [trace snd app].
       split; [by rewrite <- !app_assoc|]. split; [by eexists|].
       change (reported (?x :: ?y :: ?l)) with (reported l).
       rewrite reported_app, Hr1.
       change (reported (?x :: ?y :: ?l)) with (reported l). exact Hr2. }
  destruct (generate_header_image_summary repr w title)
    as (u & s & t3 & H3 & Hr3 & _).
  destruct (suggest_resources_summary w title) as (r & t4 & H4 & _ & Hr4).
  rewrite (generate_complete_eq repr w title word_range session
             _ _ _ _ _ _ _ _ _ Hc H1 Ho H2 Ha H3 H4).
  exists ([StatusInfo "📋 Generating article outline..."; StProgress 20]
          ++ t1
          ++ [StProgress 40; StatusInfo "✍️ Writing full article..."]
          ++ t2
          ++ [StProgress 60; StatusInfo "🖼️ Searching for header image..."]
          ++ (t3 ++ [if truthy u then StProgress 80
                     else StWarning "⚠️ Could not generate header image."])
          ++ [StatusInfo "📚 Gathering related resources..."]
          ++ (t4 ++ (if truthy r then [StProgress 100] else []))),
    (StatusSuccess "✅ Article generation complete!").
  cbn [trace snd].
  split; [by rewrite <- !app_assoc|]. split; [by eexists|].
  rewrite !reported_app, Hr1, Hr2, Hr3, Hr4.
  by destruct (truthy u), (truthy r).
Qed.

Lemma pipeline_always_cleans_up_witness :
  exists t outcome,
    trace (generate Sample.repr Sample.no_chat "Solar" "600-800" None)
    = StProgress 0 :: t ++ [outcome; ProgressEmpty; StatusEmpty]
    /\ is_Some (report_of outcome)
    /\ reported t = [].
Proof.
  apply (pipeline_always_cleans_up Sample.repr Sample.no_chat "Solar"
           "600-800" None).
  reflexivity.
Defined.

(** ** A new run and the stored result *)

(** X12.  A run does not read the stored result: started from two
    different session states it calls the same services, shows the same
    things and builds the same dictionary.  Afterwards each session
    either holds what it held before or holds exactly the dictionary
    that was built, so nothing of an earlier result is merged into a new
    one. *)
Theorem new_run_ignores_stored_result repr w title word_range s1 s2 :
  exists gc s1' s2' t,
    generate repr w title word_range s1 = (Ok (gc, s1'), t)
    /\ generate repr w title word_range s2 = (Ok (gc, s2'), t)
    /\ ((s1' = s1 /\ s2' = s2) \/ (is_Some gc /\ s1' = gc /\ s2' = gc)).
Proof.
  destruct (config_ok w title word_range) eqn:Hc.
  2: { unfold config_ok in Hc. unfold generate.
       destruct (truthy (PStr title)), (truthy (PStr word_range));
         cbn [negb orb andb] in *; rewrite ?Hc; cbn [negb];
         eexists _, _, _, _; (split; [reflexivity|]);
         (split; [reflexivity|]); by left. }
  destruct (generate_outline_summary w title word_range)
    as (o & t1 & H1 & _).
  destruct (truthy o) eqn:Ho.
  2: { eexists _, _, _, _. split_and!.
       - exact (generate_pipeline repr w _ _ _ _ _ _ Hc
                  (pipeline_outline_failed repr w _ _ s1 _ _ H1 Ho)).
       - exact (generate_pipeline repr w _ _ _ _ _ _ Hc
                  (pipeline_outline_failed repr w _ _ s2 _ _ H1 Ho)).
       - by left. }
  destruct (write_article_summary repr w title o word_range)
    as (a & t2 & H2 & _).
  destruct (truthy a) eqn:Ha.
  2: { eexists _, _, _, _. split_and!.
       - exact (generate_pipeline repr w _ _ _ _ _ _ Hc
                  (pipeline_article_failed repr w _ _ s1 _ _ _ _
                     H1 Ho H2 Ha)).
       - exact (generate_pipeline repr w _ _ _ _ _ _ Hc
                  (pipeline_article_failed repr w _ _ s2 _ _ _ _
                     H1 Ho H2 Ha)).
       - by left. }
  destruct (generate_header_image_summary repr w title)
    as (u & s & t3 & H3 & _).
  destruct (suggest_resources_summary w title) as (r & t4 & H4 & _).
  eexists _, _, _, _. split_and!.
  - exact (generate_complete_eq repr w title word_range s1
             _ _ _ _ _ _ _ _ _ Hc H1 Ho H2 Ha H3 H4).
  - exact (generate_complete_eq repr w title word_range s2
             _ _ _ _ _ _ _ _ _ Hc H1 Ho H2 Ha H3 H4).
  - right. by split_and!.
Qed.

(** ** The shape of what is stored *)

Lemma truthy_option_nonempty o :
  truthy (py_of_option o) = true -> nonempty_str (py_of_option o).
Proof.
  destruct o as [s|]; [|done]. cbn. intros H. exists s. split; [done|].
  intros ->. done.
Qed.

Lemma chat_value w content q err v t :
  chat w content q err = (Ok v, t) -> truthy v = true -> nonempty_str v.
Proof.
  unfold chat, call_chat_create, bind, lift, emit, ret, try_except.
  destruct (chat_completions_create w _) as [resp|e]; cbn.
  - destruct (list_item _ _) as [c|e]; cbn.
    + intros [= <- _]. apply truthy_option_nonempty.
    + by intros [= <- _].
  - by intros [= <- _].
Qed.

Ltac elem_of_list_tac :=
  repeat first [apply list_elem_of_here | apply list_elem_of_further].

Lemma complete_stored_shape o a u s r :
  nonempty_str o -> nonempty_str a -> image_pair u s ->
  (truthy r = true -> nonempty_str r) ->
  let img := if truthy u then (u, s) else (PNone, PNone) in
  let base :=
    <["image_source" := img.2]>
      (<["image_url" := img.1]>
         (<["article" := a]> {[ "outline" := o ]})) in
  stored_shape (if truthy r then <["resources" := r]> base else base).
Proof.
  intros Ho Ha Hp Hr img base.
  assert (img = (u, s)) as Himg.
  { subst img. destruct Hp as [[-> _]|[-> ->]]; done. }
  subst base. rewrite Himg. cbn [fst snd]. clear img Himg.
  destruct (truthy r) eqn:Er.
  - split_and!.
    + exists o. by simplify_map_eq.
    + exists a. by simplify_map_eq.
    + exists u, s. by simplify_map_eq.
    + intros r'. simplify_map_eq. intros [= <-]. by apply Hr.
    + intros k [v Hk].
      repeat (apply lookup_insert_Some in Hk as [[<- _]|[_ Hk]];
              [elem_of_list_tac|]).
      apply lookup_singleton_Some in Hk as [<- _]. elem_of_list_tac.
  - split_and!.
    + exists o. by simplify_map_eq.
    + exists a. by simplify_map_eq.
    + exists u, s. by simplify_map_eq.
    + intros r'. by simplify_map_eq.
    + intros k [v Hk].
      repeat (apply lookup_insert_Some in Hk as [[<- _]|[_ Hk]];
              [elem_of_list_tac|]).
      apply lookup_singleton_Some in Hk as [<- _]. elem_of_list_tac.
Qed.

Lemma generate_stored_shape repr w title word_range session gc session' t :
  generate repr w title word_range session = (Ok (gc, session'), t) ->
  session' = session \/ exists c, session' = Some c /\ stored_shape c.
Proof.
  intros H.
  destruct (config_ok w title word_range) eqn:Hc.
  2: { destruct (generate_config_error repr w title word_range session Hc)
         as (msg & Hg & _).
       rewrite Hg in H. injection H as <- <- <-. by left. }
  destruct (generate_outline_summary w title word_range)
    as (o & t1 & H1 & _).
  destruct (truthy o) eqn:Ho.
  2: { rewrite (generate_pipeline repr w _ _ _ _ _ _ Hc
                  (pipeline_outline_failed repr w _ _ session _ _ H1 Ho))
         in H.
       injection H as <- <- <-. by left. }
  destruct (write_article_summary repr w title o word_range)
    as (a & t2 & H2 & _).
  destruct (truthy a) eqn:Ha.
  2: { rewrite (generate_pipeline repr w _ _ _ _ _ _ Hc
                  (pipeline_article_failed repr w _ _ session _ _ _ _
                     H1 Ho H2 Ha)) in H.
       injection H as <- <- <-. by left. }
  destruct (generate_header_image_summary repr w title)
    as (u & s & t3 & H3 & _ & Hp).
  destruct (suggest_resources_summary w title) as (r & t4 & H4 & _).
  rewrite (generate_complete_eq repr w title word_range session
             _ _ _ _ _ _ _ _ _ Hc H1 Ho H2 Ha H3 H4) in H.
  cbv zeta in H. injection H as <- <- <-.
  right. eexists. split; [reflexivity|].
  apply complete_stored_shape; try done.
  - exact (chat_value _ _ _ _ _ _ H1 Ho).
  - exact (chat_value _ _ _ _ _ _ H2 Ha).
  - exact (chat_value _ _ _ _ _ _ H4).
Qed.

(** X13.  Every result that the session can come to hold has the same
    shape: an outline and an article that are strings and not empty, both
    image keys, holding either a URL with the label ["Freepik"] or
    ["DALL-E"] or two [None]s, resources only as a string that is not
    empty, and no other key. *)
Theorem stored_results_have_one_shape repr c :
  reachable repr (Some c) -> stored_shape c.
Proof.
  intros Hreach. remember (Some c) as session eqn:Hs. revert c Hs.
  induction Hreach
    as [|w h title word_range gb dl session session' m _ IH H].
  - done.
  - intros c ->.
    apply script_session in H as [<- | (gc & tg & Hg)]; [by apply IH|].
    apply generate_stored_shape in Hg as [<- | (c' & [= <-] & Hc)];
      [by apply IH | done].
Qed.

Lemma stored_results_have_one_shape_witness :
  exists c,
    (script Sample.repr Sample.text_only Sample.page "Solar" "600-800"
       true false None).1
    = Some c
    /\ c !! "image_url" = Some PNone
    /\ c !! "resources" = None
    /\ stored_shape c.
Proof.
  eexists. split; [reflexivity|]. split; [reflexivity|].
  split; [reflexivity|].
  apply (stored_results_have_one_shape Sample.repr).
  eapply (reachable_script Sample.repr Sample.text_only Sample.page "Solar"
            "600-800" true false None); [apply reachable_initial|].
  reflexivity.
Defined.

(** ** What is shown and exported of a stored result *)

(** X14.  When [st.image] takes the stored image, the display of a
    stored result returns and shows the stored outline and the stored
    article.  It shows the header image exactly when the stored URL is
    not [None], with a caption that names ["Freepik"] or ["DALL-E"] (the
    fallback ["Unknown"] is never used), and the text "No header image
    available." otherwise; without stored resources it shows "No
    resources generated.". *)
Theorem display_of_stored_result repr h title download_clicked c :
  stored_shape c ->
  image_shows repr h c ->
  let d := display repr h title download_clicked (Some c) in
  value d = Ok tt
  /\ (exists o a,
        c !! "outline" = Some o /\ c !! "article" = Some a
        /\ StMarkdown o ∈ trace d /\ StMarkdown a ∈ trace d)
  /\ ((c !! "image_url" = Some PNone /\ shown_images (trace d) = []
       /\ StInfo "No header image available." ∈ trace d)
      \/ (exists u label,
             c !! "image_url" = Some u /\ truthy u = true
             /\ (label = "Freepik" \/ label = "DALL-E")
             /\ shown_images (trace d)
                = [(u, "Header Image (Source: " +:+ label +:+ ")")]))
  /\ (c !! "resources" = None ->
      StMarkdown (PStr "No resources generated.") ∈ trace d).
Proof.
  intros ((o & Ho & _) & (a & Ha & _) & (u & s & Hu & Hs & Hp) & _ & _)
    Himg d.
  subst d. unfold display.
  rewrite (truthy_dict_lookup _ _ _ Ho).
  destruct (display_image_cases c) as [Hf | (u' & Hu' & Et & -> & ->)].
  - rewrite Hf. unfold get_default in *. rewrite Ho, Ha, Hu in *.
    cbn [default id] in *.
    destruct Hp as [[Et _]|[-> ->]]; [by rewrite Et in Hf|].
    split_and!.
    + by destruct download_clicked.
    + exists o, a. split_and!; [done..| |];
        destruct download_clicked; cbn; elem_of_list_tac.
    + left. split_and!; [done|by destruct download_clicked|].
      destruct download_clicked; cbn; elem_of_list_tac.
    + intros ->. destruct download_clicked; cbn; elem_of_list_tac.
  - rewrite Hu in Hu'. injection Hu' as <-.
    rewrite bind_ret. unfold call_st_image. rewrite (Himg u Hu Et).
    destruct Hp as [[_ Hl]|[-> _]]; [|done].
    unfold image_caption, get_default. rewrite Ho, Ha, Hs.
    cbn [default id].
    split_and!.
    + by destruct download_clicked.
    + exists o, a. split_and!; [done..| |];
        destruct download_clicked; cbn; elem_of_list_tac.
    + right. destruct Hl as [-> | ->].
      * exists u, "Freepik". split_and!; [done..|by left|].
        by destruct download_clicked.
      * exists u, "DALL-E". split_and!; [done..|by right|].
        by destruct download_clicked.
    + intros ->. destruct download_clicked; cbn; elem_of_list_tac.
Qed.

Lemma display_of_stored_result_witness :
  exists c,
    generate Sample.repr Sample.good "Solar" "600-800" None
    = (Ok (Some c, Some c),
       trace (generate Sample.repr Sample.good "Solar" "600-800" None))
    /\ let d := display Sample.repr Sample.strict_image "Solar" false (Some c) in
       value d = Ok tt
       /\ (exists o a,
             c !! "outline" = Some o /\ c !! "article" = Some a
             /\ StMarkdown o ∈ trace d /\ StMarkdown a ∈ trace d)
       /\ ((c !! "image_url" = Some PNone /\ shown_images (trace d) = []
            /\ StInfo "No header image available." ∈ trace d)
           \/ (exists u label,
                  c !! "image_url" = Some u /\ truthy u = true
                  /\ (label = "Freepik" \/ label = "DALL-E")
                  /\ shown_images (trace d)
                     = [(u, "Header Image (Source: " +:+ label +:+ ")")]))
       /\ (c !! "resources" = None ->
           StMarkdown (PStr "No resources generated.") ∈ trace d).
Proof.
  eexists. split; [reflexivity|].
  apply (display_of_stored_result Sample.repr Sample.strict_image "Solar"
           false).
  - destruct (generate_stored_shape Sample.repr Sample.good "Solar" "600-800"
                None _ _ _ eq_refl) as [H | (c & [= <-] & H)]; [done|].
    exact H.
  - intros u [= <-] _. reflexivity.
Defined.

(** X15.  The export of a stored result is the template filled with the
    title input, the stored outline and the stored article, and with the
    stored resources or, when there are none, an empty resources section
    (the display's "No resources generated." is not exported).  It
    holds neither the image URL nor its source.  When [st.image] takes
    the stored image, the display with the download button pressed
    offers exactly this document, under the file name made from the
    title. *)
Theorem export_of_stored_result repr h title c :
  stored_shape c ->
  exists O A,
    c !! "outline" = Some (PStr O) /\ c !! "article" = Some (PStr A)
    /\ markdown_content repr title c
       = export_template title O A (resources_text c)
    /\ (c !! "resources" = None -> resources_text c = "")
    /\ (image_shows repr h c ->
        exported (trace (display repr h title true (Some c)))
        = [(export_template title O A (resources_text c),
            download_file_name title)]).
Proof.
  intros ((o & Ho & O & -> & _) & (a & Ha & A & -> & _) & _ & Hr & _).
  exists O, A.
  assert (Hdoc : markdown_content repr title c
                 = export_template title O A (resources_text c)).
  { unfold markdown_content, export_template, get_default, resources_text.
    rewrite Ho, Ha. cbn [default py_str].
    destruct (c !! "resources") as [r|] eqn:Er; [|done].
    destruct (Hr r eq_refl) as (R & -> & _). done. }
  split_and!; [done..| |].
  - unfold resources_text. by intros ->.
  - intros Himg.
    destruct (display_Ok repr h title true (Some c)) as [_ He].
    { by intros c' [= <-]. }
    by rewrite He, (truthy_dict_lookup _ _ _ Ho), Hdoc.
Qed.

Lemma export_of_stored_result_witness :
  exists c,
    generate Sample.repr Sample.text_only "Solar Power" "600-800" None
    = (Ok (Some c, Some c),
       trace (generate Sample.repr Sample.text_only "Solar Power" "600-800"
                None))
    /\ c !! "resources" = None
    /\ exported
         (trace (display Sample.repr Sample.strict_image "Solar Power" true
                   (Some c)))
       = [(export_template "Solar Power" "text" "text" "",
           "Solar_Power.md")].
Proof.
  eexists. split; [reflexivity|]. split; [reflexivity|].
  destruct (export_of_stored_result Sample.repr Sample.strict_image
              "Solar Power" _
              ltac:(destruct (generate_stored_shape Sample.repr
                                Sample.text_only "Solar Power" "600-800"
                                None _ _ _ eq_refl)
                      as [H | (c & [= <-] & H)]; [done | exact H]))
    as (O & A & HO & HA & _ & _ & Hexp).
  injection HO as <-. injection HA as <-.
  apply Hexp. intros u [= <-]. done.
Defined.

(** X18.  When [st.image] raises on the stored image, the display raises
    with it after the heading of the image section: the resources and
    the export are not reached, also when the download button was
    pressed.  The stored result is not touched, so every later execution
    raises at the same place; and a run that stored such a result keeps
    it stored although the execution raised. *)
Theorem image_failure_stops_the_display
    repr w h title word_range download_clicked c u e :
  c !! "image_url" = Some u -> truthy u = true ->
  st_image h u (image_caption repr c) 700 = Raise e ->
  display repr h title download_clicked (Some c)
  = (Raise e,
     [StExpander "📋 Article Outline";
      StMarkdown (get_default c "outline" (PStr "No outline generated."));
      StMarkdown (PStr "---");
      StMarkdown (PStr "### 📝 Complete Article");
      StMarkdown (get_default c "article" (PStr "No article generated."));
      StMarkdown (PStr "---");
      StMarkdown (PStr "### 🖼️ Header Image")])
  /\ exported (trace (display repr h title download_clicked (Some c))) = []
  /\ (forall generate_button session t0,
        before_display repr w h title word_range generate_button session
        = (Ok (Some c), t0) ->
        let run :=
          script repr w h title word_range generate_button download_clicked
            session in
        run.1 = Some c /\ value run.2 = Raise e
        /\ exported (trace run.2) = exported t0).
Proof.
  intros Hu Et He.
  assert (Hd : display repr h title download_clicked (Some c)
    = (Raise e,
       [StExpander "📋 Article Outline";
        StMarkdown (get_default c "outline" (PStr "No outline generated."));
        StMarkdown (PStr "---");
        StMarkdown (PStr "### 📝 Complete Article");
        StMarkdown (get_default c "article" (PStr "No article generated."));
        StMarkdown (PStr "---");
        StMarkdown (PStr "### 🖼️ Header Image")])).
  { unfold display. rewrite (truthy_dict_lookup _ _ _ Hu).
    destruct (display_image_cases c) as [Hf | (u' & Hu' & _ & -> & ->)].
    - unfold get_default in Hf. rewrite Hu in Hf. cbn in Hf. congruence.
    - rewrite Hu in Hu'. injection Hu' as <-.
      rewrite bind_ret. unfold call_st_image. by rewrite He. }
  split; [exact Hd|]. split; [by rewrite Hd|].
  intros generate_button session t0 Hb run. subst run.
  rewrite (script_display _ _ _ _ _ _ download_clicked _ _ _ Hb).
  cbn [fst snd value trace]. rewrite Hd. cbn [fst snd].
  split_and!; [done..|]. rewrite exported_app. cbn. by rewrite app_nil_r.
Qed.

Lemma image_failure_stops_the_display_witness :
  exists c,
    (script Sample.repr Sample.number_url Sample.strict_image "Solar"
       "600-800" true true None).1
    = Some c
    /\ c !! "image_url" = Some (PInt 123)
    /\ value (script Sample.repr Sample.number_url Sample.strict_image
                "Solar" "600-800" true true None).2
       = Raise (Exn TypeError "cannot load the image")
    /\ value (script Sample.repr Sample.number_url Sample.strict_image
                "Solar" "600-800" false true (Some c)).2
       = Raise (Exn TypeError "cannot load the image")
    /\ exported
         (trace (script Sample.repr Sample.number_url Sample.strict_image
                   "Solar" "600-800" false true (Some c)).2)
       = [].
Proof.
  eexists. split; [reflexivity|]. split; [reflexivity|].
  split; [reflexivity|].
  match goal with
  | |- value (script _ _ _ _ _ _ _ (Some ?c)).2 = _ /\ _ =>
      destruct (image_failure_stops_the_display Sample.repr Sample.number_url
                  Sample.strict_image "Solar" "600-800" true c (PInt 123)
                  (Exn TypeError "cannot load the image")
                  eq_refl eq_refl eq_refl) as (_ & _ & H)
  end.
  destruct (H false _ _ eq_refl) as (_ & Hv & He).
  split; [exact Hv | exact He].
Defined.

(** ** The name of the exported file *)

(** ** The name of the exported file *)

Lemma length_replace_spaces s :
  String.length (replace_spaces s) = String.length s.
Proof. induction s as [|c s IH]; [done|]. simpl. by f_equal. Qed.

Lemma get_replace_spaces s n :
  String.get n (replace_spaces s)
  = (fun c => if Ascii.eqb c " " then "_"%char else c) <$> String.get n s.
Proof.
  revert n. induction s as [|c s IH]; intros n; [done|].
  destruct n as [|n]; [done|]. cbn. apply IH.
Qed.

Lemma length_append s1 s2 :
  String.length (s1 +:+ s2) = (String.length s1 + String.length s2)%nat.
Proof. induction s1 as [|c s1 IH]; [done|]. simpl. by f_equal. Qed.

(** X16.  The file name of the export is the title with every space
    replaced by an underscore and every other character kept, followed
    by [.md]: it is three characters longer than the title and holds no
    space.  Replacing again changes nothing, and a title without spaces
    is kept as it is. *)
Theorem download_file_name_replaces_spaces title :
  download_file_name title = replace_spaces title +:+ ".md"
  /\ String.length (download_file_name title)
     = (String.length title + 3)%nat
  /\ (forall n,
        String.get n (replace_spaces title)
        = (fun c => if Ascii.eqb c " " then "_"%char else c)
            <$> String.get n title)
  /\ (forall n, String.get n (download_file_name title) <> Some " "%char)
  /\ replace_spaces (replace_spaces title) = replace_spaces title
  /\ ((forall n, String.get n title <> Some " "%char) ->
      replace_spaces title = title).
Proof.
  split_and!.
  - done.
  - unfold download_file_name. by rewrite length_append, length_replace_spaces.
  - intros n. apply get_replace_spaces.
  - intros n. unfold download_file_name.
    destruct (decide (n < String.length (replace_spaces title))%nat) as [Hn|Hn].
    + rewrite <- (String.append_correct1 _ _ _ Hn), get_replace_spaces.
      destruct (String.get n title) as [c|]; [|done]. cbn.
      destruct (Ascii.eqb_spec c " "); [done|]. by intros [= ->].
    + replace n with ((n - String.length (replace_spaces title))
                      + String.length (replace_spaces title))%nat by lia.
      rewrite <- String.append_correct2.
      generalize (n - String.length (replace_spaces title))%nat. intros m.
      by do 4 (destruct m as [|m]; [done|]).
  - induction title as [|c s IH]; [done|]. cbn. rewrite IH. f_equal.
    destruct (Ascii.eqb_spec c " "); [done|].
    by destruct (Ascii.eqb_spec c " ").
  - induction title as [|c s IH]; [done|]. intros H. cbn.
    rewrite IH by (intros n; apply (H (S n))). f_equal.
    destruct (Ascii.eqb_spec c " ") as [->|]; [|done]. by destruct (H 0%nat).
Qed.

Lemma download_file_name_replaces_spaces_witness :
  download_file_name "Future of Solar Power" = "Future_of_Solar_Power.md"
  /\ replace_spaces "Solar" = "Solar".
Proof.
  destruct (download_file_name_replaces_spaces "Future of Solar Power")
    as (H & _).
  destruct (download_file_name_replaces_spaces "Solar")
    as (_ & _ & _ & _ & _ & H').
  split; [exact H|]. apply H'.
  intros n. by do 6 (destruct n as [|n]; [done|]).
Defined.
